(** * GitHub README searcher: search, README fetch and enrichment

    A shallow embedding of the search-and-enrich pipeline of the
    repository, in its two implementations

      - [Core]   : app/core/searcher.py   (used by app/api/routes.py)
      - [Direct] : github_api_searcher.py (used by api_server_direct.py
                   and cli_api.py)

    and of the usage counters of app/api/routes.py.

    Python values are dynamically typed: what comes back from the
    upstream JSON API is embedded as [value], exceptions are results
    ([res]), and the HTTP session is an oracle [upstream] from requests
    to outcomes together with a trace of the calls that were made. *)

From Stdlib Require Import ZArith String Ascii List Bool Lia.
From stdpp Require Import base option list strings gmap sorting.

Local Open Scope string_scope.
Local Open Scope list_scope.
Local Open Scope Z_scope.

(** ** Python values and exceptions *)

(** A JSON document as Python's [json] module delivers it.  JSON numbers
    are taken to be integers; [VNone] is Python's [None] (JSON null). *)
#[warnings="-register-all"] Inductive value : Type :=
| VNone
| VBool (b : bool)
| VInt (n : Z)
| VStr (s : string)
| VList (l : list value)
| VDict (d : list (string * value)).

(** The exceptions that occur; every one of them is a subclass of
    Python's [Exception], so an [except Exception] clause catches all. *)
Inductive exn : Type :=
| KeyError (key : string)
| TypeError
| ValueError
| AttributeError
| BinasciiError
| UnicodeDecodeError
| JSONDecodeError
| ClientError (msg : string).

Inductive res (A : Type) : Type :=
| Ok (a : A)
| Raise (e : exn).
Arguments Ok {A} a.
Arguments Raise {A} e.

#[global] Instance res_ret : MRet res := fun A a => Ok a.
#[global] Instance res_bind : MBind res := fun A B f m =>
  match m with
  | Ok a => f a
  | Raise e => Raise e
  end.

(** [for x in l: ... f x ...] collecting the results; the first
    exception ends the loop. *)
Fixpoint res_map {A B} (f : A -> res B) (l : list A) : res (list B) :=
  match l with
  | [] => Ok []
  | x :: l' =>
      y ← f x;
      ys ← res_map f l';
      Ok (y :: ys)
  end.

Module Py.

(** A Python [str] is held as its UTF-8 encoding. *)
Definition byte_val (a : ascii) : Z := Z.of_N (N_of_ascii a).

Definition is_continuation (b : Z) : bool := (128 <=? b) && (b <? 192).

Definition starts_with_continuation (s : string) : bool :=
  match s with
  | EmptyString => false
  | String a _ => is_continuation (byte_val a)
  end.

(** The characters (code points) of a string, each as a string. *)
Fixpoint chars (s : string) : list string :=
  match s with
  | EmptyString => []
  | String a s' =>
      if starts_with_continuation s' then
        match chars s' with
        | c :: cs => String a c :: cs
        | [] => [String a EmptyString]
        end
      else String a EmptyString :: chars s'
  end.

Fixpoint assoc (k : string) (d : list (string * value)) : option value :=
  match d with
  | [] => None
  | (k', v) :: d' => if String.eqb k k' then Some v else assoc k d'
  end.

(** [obj[key]] for a string key. *)
Definition getitem (obj : value) (key : string) : res value :=
  match obj with
  | VDict d =>
      match assoc key d with
      | Some v => Ok v
      | None => Raise (KeyError key)
      end
  | _ => Raise TypeError
  end.

(** [obj.get(key, default)]: only a dict has the method. *)
Definition get (obj : value) (key : string) (default : value) : res value :=
  match obj with
  | VDict d =>
      match assoc key d with
      | Some v => Ok v
      | None => Ok default
      end
  | _ => Raise AttributeError
  end.

(** [list(obj)], as [list.extend] consumes its argument. *)
Definition iter (obj : value) : res (list value) :=
  match obj with
  | VList l => Ok l
  | VStr s => Ok (map VStr (chars s))
  | VDict d => Ok (map (fun kv => VStr (fst kv)) d)
  | _ => Raise TypeError
  end.

(** [len(obj)] *)
Definition len (obj : value) : res Z :=
  match obj with
  | VList l => Ok (Z.of_nat (length l))
  | VStr s => Ok (Z.of_nat (length (chars s)))
  | VDict d => Ok (Z.of_nat (length d))
  | _ => Raise TypeError
  end.

(** Truth value of an object, as [if obj:] tests it. *)
Definition truthy (obj : value) : bool :=
  match obj with
  | VNone => false
  | VBool b => b
  | VInt n => negb (n =? 0)
  | VStr s => negb (String.eqb s "")
  | VList l => match l with [] => false | _ => true end
  | VDict d => match d with [] => false | _ => true end
  end.

(** [obj == s] for a string literal [s]. *)
Definition eq_str (obj : value) (s : string) : bool :=
  match obj with
  | VStr t => String.eqb t s
  | _ => false
  end.

(** [l[:n]] *)
Definition slice_to {A} (l : list A) (n : Z) : list A :=
  if 0 <=? n then take (Z.to_nat n) l
  else take (length l - Z.to_nat (- n))%nat l.

(** [s.split('/', 1)] *)
Fixpoint split_slash (s : string) : list string :=
  match s with
  | EmptyString => [EmptyString]
  | String a s' =>
      if Ascii.eqb a "/"%char then [EmptyString; s']
      else
        match split_slash s' with
        | [p] => [String a p]
        | p :: q => String a p :: q
        | [] => [String a EmptyString]
        end
  end.

(** [obj.split('/', 1)]: only a [str] has the method. *)
Definition split (obj : value) : res (list string) :=
  match obj with
  | VStr s => Ok (split_slash s)
  | _ => Raise AttributeError
  end.

(** [a, b = parts] *)
Definition unpack2 (parts : list string) : res (string * string) :=
  match parts with
  | [a; b] => Ok (a, b)
  | _ => Raise ValueError
  end.

Fixpoint contains_slash (s : string) : bool :=
  match s with
  | EmptyString => false
  | String a s' => Ascii.eqb a "/"%char || contains_slash s'
  end.

(** Integers as [<] sees them: [bool] is a subclass of [int]. *)
Definition as_int (obj : value) : option Z :=
  match obj with
  | VInt n => Some n
  | VBool b => Some (if b then 1 else 0)
  | _ => None
  end.

Fixpoint str_ltb (s t : string) : bool :=
  match s, t with
  | _, EmptyString => false
  | EmptyString, String _ _ => true
  | String a s', String b t' =>
      if byte_val a <? byte_val b then true
      else if byte_val b <? byte_val a then false
      else str_ltb s' t'
  end.

(** [a < b].  Numbers compare with numbers and strings with strings (by
    code point, which on the UTF-8 encoding is byte order); [None], a
    dict or a mixed pair raise [TypeError].  The lexicographic order of
    Python lists is left out: a list-valued key raises here. *)
Definition lt (a b : value) : res bool :=
  match as_int a, as_int b with
  | Some x, Some y => Ok (x <? y)
  | _, _ =>
      match a, b with
      | VStr s, VStr t => Ok (str_ltb s t)
      | _, _ => Raise TypeError
      end
  end.

End Py.

(** ** Decoding README content

    [base64.b64decode(content).decode('utf-8')] is library code.  The
    decoder follows CPython's [binascii.a2b_base64] in its default,
    non-strict mode: characters outside the alphabet are skipped, a pad
    character ends the input once a quad is complete, and a dangling
    quad is an error. *)
Module Base64.

Definition table_a2b_base64 (c : Z) : Z :=
  if (65 <=? c) && (c <=? 90) then c - 65
  else if (97 <=? c) && (c <=? 122) then c - 71
  else if (48 <=? c) && (c <=? 57) then c + 4
  else if c =? 43 then 62
  else if c =? 47 then 63
  else 255.

Definition BASE64_PAD : Z := 61.

Record state : Type := mkState {
  quad_pos : Z;
  leftchar : Z;
  pads : Z;
  bin_data : list Z
}.

Definition byte (z : Z) : Z := Z.land z 255.

(** The body of the scanning loop; [None] is the jump to [done]. *)
Definition step (st : state) (this_ch : Z) : option state :=
  if this_ch =? BASE64_PAD then
    if (2 <=? quad_pos st) && (4 <=? quad_pos st + (pads st + 1)) then None
    else if 2 <=? quad_pos st
         then Some (mkState (quad_pos st) (leftchar st) (pads st + 1) (bin_data st))
         else Some st
  else
    let d := table_a2b_base64 this_ch in
    if 64 <=? d then Some st
    else
      if quad_pos st =? 0 then
        Some (mkState 1 d 0 (bin_data st))
      else if quad_pos st =? 1 then
        Some (mkState 2 (Z.land d 15) 0
                (bin_data st ++ [byte (Z.lor (Z.shiftl (leftchar st) 2) (Z.shiftr d 4))]))
      else if quad_pos st =? 2 then
        Some (mkState 3 (Z.land d 3) 0
                (bin_data st ++ [byte (Z.lor (Z.shiftl (leftchar st) 4) (Z.shiftr d 2))]))
      else
        Some (mkState 0 0 0
                (bin_data st ++ [byte (Z.lor (Z.shiftl (leftchar st) 6) d)])).

Fixpoint scan (st : state) (input : list Z) : res (list Z) :=
  match input with
  | [] => if quad_pos st =? 0 then Ok (bin_data st) else Raise BinasciiError
  | c :: rest =>
      match step st c with
      | None => Ok (bin_data st)
      | Some st' => scan st' rest
      end
  end.

Definition a2b_base64 (input : list Z) : res (list Z) :=
  scan (mkState 0 0 0 []) input.

Fixpoint bytes_of_string (s : string) : list Z :=
  match s with
  | EmptyString => []
  | String a s' => Py.byte_val a :: bytes_of_string s'
  end.

Fixpoint string_of_bytes (l : list Z) : string :=
  match l with
  | [] => EmptyString
  | b :: l' => String (ascii_of_N (Z.to_N b)) (string_of_bytes l')
  end.

(** [base64.b64decode(s)]: a [str] must be ASCII, anything that is not
    bytes-like is a [TypeError]. *)
Definition b64decode (s : value) : res (list Z) :=
  match s with
  | VStr t =>
      let input := bytes_of_string t in
      if forallb (fun b => b <? 128) input then a2b_base64 input
      else Raise ValueError
  | _ => Raise TypeError
  end.

Definition cont (b : Z) : bool := (128 <=? b) && (b <=? 191).

(** Well-formed UTF-8 byte sequences (no overlong forms, no surrogates,
    nothing above U+10FFFF). *)
Fixpoint utf8_valid (l : list Z) : bool :=
  match l with
  | [] => true
  | b0 :: l1 =>
      if b0 <? 128 then utf8_valid l1
      else
        match l1 with
        | [] => false
        | b1 :: l2 =>
            if (194 <=? b0) && (b0 <=? 223) then cont b1 && utf8_valid l2
            else
              match l2 with
              | [] => false
              | b2 :: l3 =>
                  if (224 <=? b0) && (b0 <=? 239) then
                    (if b0 =? 224 then (160 <=? b1) && (b1 <=? 191)
                     else if b0 =? 237 then (128 <=? b1) && (b1 <=? 159)
                     else cont b1)
                    && cont b2 && utf8_valid l3
                  else
                    match l3 with
                    | [] => false
                    | b3 :: l4 =>
                        (240 <=? b0) && (b0 <=? 244)
                        && (if b0 =? 240 then (144 <=? b1) && (b1 <=? 191)
                            else if b0 =? 244 then (128 <=? b1) && (b1 <=? 143)
                            else cont b1)
                        && cont b2 && cont b3 && utf8_valid l4
                    end
              end
        end
  end.

(** [data.decode('utf-8')] *)
Definition decode_utf8 (data : list Z) : res value :=
  if utf8_valid data then Ok (VStr (string_of_bytes data))
  else Raise UnicodeDecodeError.

End Base64.

(** ** The HTTP session

    [session.get] is the only way out of the process.  The upstream is
    an oracle from requests to outcomes: during one call of the searcher
    it answers equal requests equally, and is otherwise arbitrary.
    Every request is appended to a trace, and so is every entry into
    [get_readme_content]. *)

Record request : Type := mkRequest {
  req_url : string;
  req_params : list (string * value)
}.

Record response : Type := mkResponse {
  status : Z;
  json : res value;     (* await response.json() *)
  text : res string     (* await response.text() *)
}.

Inductive http_result : Type :=
| ConnError (e : exn)      (* the request itself raises *)
| Answer (r : response).

Inductive event : Type :=
| HttpGet (req : request)
| ReadmeCall (owner repo : string).

(** Computations that may raise and that extend the trace. *)
Definition M (A : Type) : Type := list event -> res A * list event.

#[global] Instance M_ret : MRet M := fun A a tr => (Ok a, tr).
#[global] Instance M_bind : MBind M := fun A B f m tr =>
  match m tr with
  | (Ok a, tr') => f a tr'
  | (Raise e, tr') => (Raise e, tr')
  end.

Definition lift {A} (r : res A) : M A := fun tr => (r, tr).

Definition emit (ev : event) : M unit := fun tr => (Ok tt, tr ++ [ev]).

(** [try: body  except Exception as e: handler e] *)
Definition try_except {A} (body : M A) (handler : exn -> M A) : M A :=
  fun tr =>
    match body tr with
    | (Ok a, tr') => (Ok a, tr')
    | (Raise e, tr') => handler e tr'
    end.

Definition session_get (upstream : request -> http_result) (req : request)
  : M response :=
  fun tr =>
    (match upstream req with
     | ConnError e => Raise e
     | Answer r => Ok r
     end, tr ++ [HttpGet req]).

Record RepositoryInfo : Type := mkRepositoryInfo {
  name : value;
  full_name : value;
  description : value;
  stars : value;
  language : value;
  url : value;
  readme_content : value
}.

(** [repo.readme_content = v] *)
Definition set_readme_content (v : value) (repo : RepositoryInfo) : RepositoryInfo :=
  {| name := name repo; full_name := full_name repo;
     description := description repo; stars := stars repo;
     language := language repo; url := url repo;
     readme_content := v |}.

(** ** Pagination

    The accumulation loop of [search_repositories] is the same text in
    app/core/searcher.py (lines 59-97) and github_api_searcher.py (lines
    66-104). *)

Inductive ctl : Type := Next | Break.

Section Pagination.
Context (github_host : string) (upstream : request -> http_result).

Definition search_request (query : string) (per_page page : Z) : request :=
  {| req_url := github_host +:+ "/search/repositories";
     req_params := [("q", VStr query); ("sort", VStr "stars");
                    ("order", VStr "desc"); ("per_page", VInt per_page);
                    ("page", VInt page)] |}.

(** One turn of the [while] body, up to [page += 1].  Nothing after
    [all_repos.extend(repos)] can raise, so the handler sees the list as
    it was before the turn. *)
Definition search_page (query : string) (per_page page : Z)
    (all_repos : list value) : M (ctl * list value) :=
  try_except
    (response ← session_get upstream (search_request query per_page page);
     if status response =? 200 then
       data ← lift (json response);
       repos ← lift (Py.get data "items" (VList []));
       items ← lift (Py.iter repos);
       n ← lift (Py.len repos);
       if n <? per_page then mret (Break, all_repos ++ items)
       else mret (Next, all_repos ++ items)
     else
       error_text ← lift (text response);
       mret (Break, all_repos))
    (fun e => mret (Break, all_repos)).

(** [while len(all_repos) < limit * 2 and page <= 3] *)
Fixpoint search_loop (fuel : nat) (limit per_page : Z) (query : string)
    (page : Z) (all_repos : list value) : M (list value) :=
  match fuel with
  | O => mret all_repos
  | S fuel' =>
      if (Z.of_nat (length all_repos) <? limit * 2) && (page <=? 3) then
        '(c, all_repos') ← search_page query per_page page all_repos;
        match c with
        | Break => mret all_repos'
        | Next => search_loop fuel' limit per_page query (page + 1) all_repos'
        end
      else mret all_repos
  end.

Definition search_pages (domain : string) (limit : Z) : M (list value) :=
  let query := domain +:+ " sort:stars" in
  let per_page := Z.min 100 (limit * 2) in
  search_loop 3 limit per_page query 1 [].

End Pagination.

(** ** Search-and-enrich

    [search_and_get_readmes] is the same text in both files (lines
    158-177 and 175-194); it is stated once over the two methods it
    calls. *)

Section Enrich.
Context (search_repositories : string -> Z -> M (list RepositoryInfo))
        (get_readme_content : string -> string -> M value).

(** The first loop.  A task is the coroutine object: nothing runs until
    it is awaited.  The record of a task is known by its position in
    [repositories]. *)
Fixpoint make_tasks (i : nat) (repositories : list RepositoryInfo)
  : res (list (nat * M value)) :=
  match repositories with
  | [] => Ok []
  | repo :: rest =>
      parts ← Py.split (full_name repo);
      '(owner, repo_name) ← Py.unpack2 parts;
      tasks ← make_tasks (S i) rest;
      Ok ((i, get_readme_content owner repo_name) :: tasks)
  end.

(** The second loop: each task is awaited in turn and its record is
    updated in place. *)
Fixpoint await_tasks (tasks : list (nat * M value))
    (repositories : list RepositoryInfo) : M (list RepositoryInfo) :=
  match tasks with
  | [] => mret repositories
  | (i, task) :: rest =>
      v ← try_except task (fun e => mret VNone);
      await_tasks rest (alter (set_readme_content v) i repositories)
  end.

Definition search_and_get_readmes_of (domain : string) (limit : Z)
  : M (list RepositoryInfo) :=
  repositories ← search_repositories domain limit;
  tasks ← lift (make_tasks 0 repositories);
  await_tasks tasks repositories.

End Enrich.

(** ** app/core/searcher.py *)
Module Core.

Definition to_repository_info (repo : value) : res RepositoryInfo :=
  name ← Py.getitem repo "name";
  full_name ← Py.getitem repo "full_name";
  description ← Py.get repo "description" (VStr "");
  stars ← Py.get repo "stargazers_count" (VInt 0);
  language ← Py.get repo "language" (VStr "Unknown");
  url ← Py.getitem repo "html_url";
  Ok (mkRepositoryInfo name full_name description stars language url VNone).

Section Searcher.
Context (github_host : string) (upstream : request -> http_result).

Definition search_repositories (domain : string) (limit : Z)
  : M (list RepositoryInfo) :=
  all_repos ← search_pages github_host upstream domain limit;
  lift (res_map to_repository_info (Py.slice_to all_repos limit)).

Definition readme_request (owner repo : string) : request :=
  {| req_url := github_host +:+ "/repos/" +:+ owner +:+ "/" +:+ repo +:+ "/readme";
     req_params := [] |}.

Definition get_readme_content (owner repo : string) : M value :=
  emit (ReadmeCall owner repo);;
  try_except
    (response ← session_get upstream (readme_request owner repo);
     if status response =? 200 then
       data ← lift (json response);
       content ← lift (Py.get data "content" (VStr ""));
       encoding ← lift (Py.get data "encoding" (VStr "base64"));
       if Py.eq_str encoding "base64" then
         raw ← lift (Base64.b64decode content);
         lift (Base64.decode_utf8 raw)
       else mret content
     else mret VNone)
    (fun e => mret VNone).

Definition search_and_get_readmes : string -> Z -> M (list RepositoryInfo) :=
  search_and_get_readmes_of search_repositories get_readme_content.

End Searcher.
End Core.

(** ** github_api_searcher.py *)
Module Direct.

Definition to_repository_info (repo : value) : res RepositoryInfo :=
  name ← Py.getitem repo "name";
  full_name ← Py.getitem repo "full_name";
  description ← Py.get repo "description" (VStr "");
  stars ← Py.getitem repo "stargazers_count";
  language ← Py.get repo "language" (VStr "Unknown");
  url ← Py.getitem repo "html_url";
  Ok (mkRepositoryInfo name full_name description stars language url VNone).

(** [repositories.sort(key=lambda x: x.stars, reverse=True)].

    Python's sort is stable, also under [reverse=True], and compares
    keys with [<] only.  Where [<] is defined on all the keys the result
    is the stable descending order, which insertion from the right
    computes.  A key that [<] rejects raises [TypeError] as soon as it
    is compared, and in a list of two or more every key is compared. *)
Fixpoint insert_by_stars (x : RepositoryInfo) (l : list RepositoryInfo)
  : res (list RepositoryInfo) :=
  match l with
  | [] => Ok [x]
  | y :: l' =>
      below ← Py.lt (stars x) (stars y);
      if below : bool then
        r ← insert_by_stars x l';
        Ok (y :: r)
      else Ok (x :: y :: l')
  end.

Fixpoint sort_by_stars (l : list RepositoryInfo) : res (list RepositoryInfo) :=
  match l with
  | [] => Ok []
  | x :: l' =>
      sorted ← sort_by_stars l';
      insert_by_stars x sorted
  end.

Definition readme_files : list string :=
  ["README.md"; "README.rst"; "README.txt"; "README"].

Section Searcher.
Context (github_host : string) (upstream : request -> http_result).

Definition search_repositories (domain : string) (limit : Z)
  : M (list RepositoryInfo) :=
  all_repos ← search_pages github_host upstream domain limit;
  repositories ← lift (res_map to_repository_info all_repos);
  repositories ← lift (sort_by_stars repositories);
  mret (Py.slice_to repositories limit).

Definition contents_request (owner repo readme_file : string) : request :=
  {| req_url := github_host +:+ "/repos/" +:+ owner +:+ "/" +:+ repo
                +:+ "/contents/" +:+ readme_file;
     req_params := [] |}.

(** [session.get(download_url)]: the client accepts a [str] only. *)
Definition get_download (download_url : value) : M response :=
  match download_url with
  | VStr u => session_get upstream {| req_url := u; req_params := [] |}
  | _ => lift (Raise TypeError)
  end.

(** One turn of the loop over [readme_files]: [Some content] is the
    [return content], [None] falls through to the next file name. *)
Definition try_readme_file (owner repo readme_file : string) : M (option value) :=
  try_except
    (response ← session_get upstream (contents_request owner repo readme_file);
     if status response =? 200 then
       data ← lift (json response);
       download_url ← lift (Py.get data "download_url" VNone);
       if Py.truthy download_url then
         content_response ← get_download download_url;
         if status content_response =? 200 then
           content ← lift (text content_response);
           mret (Some (VStr content))
         else mret None
       else mret None
     else mret None)
    (fun e => mret None).

Fixpoint readme_loop (owner repo : string) (files : list string) : M value :=
  match files with
  | [] => mret VNone
  | readme_file :: rest =>
      found ← try_readme_file owner repo readme_file;
      match found with
      | Some content => mret content
      | None => readme_loop owner repo rest
      end
  end.

Definition get_readme_content (owner repo : string) : M value :=
  emit (ReadmeCall owner repo);;
  readme_loop owner repo readme_files.

Definition search_and_get_readmes : string -> Z -> M (list RepositoryInfo) :=
  search_and_get_readmes_of search_repositories get_readme_content.

End Searcher.
End Direct.

(** ** app/api/routes.py: the usage counters *)
Module Routes.

Record stats : Type := mkStats {
  total_searches : Z;
  total_repositories_found : Z;
  searched_domains : gmap string Z
}.

(** The module-level dict, as the import of routes.py leaves it. *)
Definition _search_stats : stats := mkStats 0 0 ∅.

(** The three statements under [# Update statistics]. *)
Definition update_statistics (domain : string) (repositories : list RepositoryInfo)
    (st : stats) : stats :=
  {| total_searches := total_searches st + 1;
     total_repositories_found :=
       total_repositories_found st + Z.of_nat (length repositories);
     searched_domains :=
       <[domain := default 0 (searched_domains st !! domain) + 1]>
         (searched_domains st) |}.

Inductive api_request : Type :=
| GetRoot
| GetHealth
| PostSearch (domain : string) (limit : Z)
| GetSearch (keywords : string) (limit : Z)
| GetSearchDomain (domain : string) (limit : Z)
| GetSearchNoReadme (domain : string) (limit : Z)
| GetDomains
| GetStats.

Inductive reply : Type :=
| Document                                    (* a static document *)
| Health (healthy api_connected token_configured : bool)
| Found (domain : string) (repositories : list RepositoryInfo)
| Counters (total_searches total_repositories_found : Z)
| ServerError (e : exn)                       (* HTTPException 500 *)
| Unprocessable.                              (* 422 from the framework *)

Section App.
Context (GITHUB_TOKEN : option string)
        (github_host : string)
        (upstream : request -> http_result)
        (* building a RepositoryResponse: the framework's validation *)
        (RepositoryResponse : RepositoryInfo -> res unit).

Definition token_configured : bool :=
  match GITHUB_TOKEN with
  | Some t => negb (String.eqb t "")
  | None => false
  end.

(** [GitHubAPISearcher()]: without a token the constructor raises. *)
Definition new_searcher : M unit :=
  if token_configured then mret tt else lift (Raise ValueError).

Definition world : Type := stats * list event.

(** The body shared by the four search routes: the [try] block up to
    and including the statistics update. *)
Definition search_and_count (with_readme : bool) (domain : string) (limit : Z)
    (w : world) : res (list RepositoryInfo) * world :=
  let '(st, tr) := w in
  match (new_searcher;;
         if with_readme
         then Core.search_and_get_readmes github_host upstream domain limit
         else Core.search_repositories github_host upstream domain limit) tr with
  | (Ok repositories, tr') =>
      (Ok repositories, (update_statistics domain repositories st, tr'))
  | (Raise e, tr') => (Raise e, (st, tr'))
  end.

Definition search_repositories (domain : string) (limit : Z) (w : world)
  : reply * world :=
  match search_and_count true domain limit w with
  | (Ok repositories, w') =>
      match res_map RepositoryResponse repositories with
      | Ok _ => (Found domain repositories, w')
      | Raise e => (ServerError e, w')
      end
  | (Raise e, w') => (ServerError e, w')
  end.

Definition search_repositories_query (keywords : string) (limit : Z) (w : world)
  : reply * world :=
  match search_and_count true keywords limit w with
  | (Ok repositories, w') => (Found keywords repositories, w')
  | (Raise e, w') => (ServerError e, w')
  end.

Definition search_repositories_simple (domain : string) (limit : Z) (w : world)
  : reply * world :=
  match search_and_count true domain limit w with
  | (Ok repositories, w') => (Found domain repositories, w')
  | (Raise e, w') => (ServerError e, w')
  end.

Definition search_repositories_no_readme (domain : string) (limit : Z) (w : world)
  : reply * world :=
  match search_and_count false domain limit w with
  | (Ok repositories, w') =>
      (Found domain (map (set_readme_content VNone) repositories), w')
  | (Raise e, w') => (ServerError e, w')
  end.

Definition health_check (w : world) : reply * world :=
  let '(st, tr) := w in
  if token_configured then
    match (new_searcher;;
           Core.search_repositories github_host upstream "test" 1) tr with
    | (Ok _, tr') => (Health true true true, (st, tr'))
    | (Raise _, tr') => (Health true false true, (st, tr'))
    end
  else (Health false false false, (st, tr)).

(** The totals of [get_api_stats]; the average and the ranking of the
    domains are derived from the same counters and not kept here. *)
Definition get_api_stats (w : world) : reply * world :=
  (Counters (total_searches (fst w)) (total_repositories_found (fst w)), w).

(** [ge=1, le=100] on every [limit]. *)
Definition limit_ok (limit : Z) : bool := (1 <=? limit) && (limit <=? 100).

Definition serve (r : api_request) (w : world) : reply * world :=
  match r with
  | GetRoot => (Document, w)
  | GetHealth => health_check w
  | PostSearch domain limit =>
      if limit_ok limit then search_repositories domain limit w
      else (Unprocessable, w)
  | GetSearch keywords limit =>
      if limit_ok limit then search_repositories_query keywords limit w
      else (Unprocessable, w)
  | GetSearchDomain domain limit =>
      if limit_ok limit then search_repositories_simple domain limit w
      else (Unprocessable, w)
  | GetSearchNoReadme domain limit =>
      if limit_ok limit then search_repositories_no_readme domain limit w
      else (Unprocessable, w)
  | GetDomains => (Document, w)
  | GetStats => get_api_stats w
  end.

End App.
End Routes.

(** ** Vocabulary of the statements *)

(** What one page hands to the accumulator: [Some items] when the
    status is 200 and the body delivers something to iterate over,
    [None] when the turn ends in the [else] or the [except] branch. *)
Definition page_yield (r : http_result) : option (list value) :=
  match r with
  | ConnError _ => None
  | Answer a =>
      if status a =? 200 then
        match (data ← json a;
               repos ← Py.get data "items" (VList []);
               Py.iter repos) with
        | Ok items => Some items
        | Raise _ => None
        end
      else None
  end.

Definition page_items (r : http_result) : list value :=
  default [] (page_yield r).

(** A non-success status or a transport exception. *)
Definition page_failed (r : http_result) : Prop :=
  match r with
  | ConnError _ => True
  | Answer a => status a ≠ 200
  end.

Section PageVocabulary.
Context (github_host : string) (upstream : request -> http_result)
        (domain : string) (limit : Z).

Definition per_page_of : Z := Z.min 100 (limit * 2).

Definition page_request (p : nat) : request :=
  search_request github_host (domain +:+ " sort:stars") per_page_of (Z.of_nat p).

Definition page_response (p : nat) : http_result := upstream (page_request p).

(** The raw items of pages [1 .. j], in arrival order. *)
Definition accumulated (j : nat) : list value :=
  concat (map (fun p => page_items (page_response p)) (seq 1 j)).

(** The three reasons to end the pagination after [j] pages. *)
Definition stops_after (j : nat) : Prop :=
  j = 3%nat
  ∨ limit * 2 <= Z.of_nat (length (accumulated j))
  ∨ (1 <= j)%nat ∧ Z.of_nat (length (page_items (page_response j))) < per_page_of.

End PageVocabulary.

(** How a turn of the loop ends on a given page response. *)
Definition page_ctl (r : http_result) (per_page : Z) : ctl :=
  match page_yield r with
  | Some items => if Z.of_nat (length items) <? per_page then Break else Next
  | None => Break
  end.

(** The owner and the repository name that [search_and_get_readmes]
    unpacks from a record. *)
Definition owner_repo (repo : RepositoryInfo) : res (string * string) :=
  parts ← Py.split (full_name repo);
  Py.unpack2 parts.

(** [full_name] is a string with a [/] in it. *)
Definition splittable (repo : RepositoryInfo) : Prop :=
  exists s, full_name repo = VStr s ∧ Py.contains_slash s = true.

(** The entries into [get_readme_content] that a trace records. *)
Definition readme_calls (tr : list event) : list (string * string) :=
  omap (fun ev => match ev with
                  | ReadmeCall owner repo => Some (owner, repo)
                  | HttpGet _ => None
                  end) tr.

(** What an awaited task leaves in [readme_content]: its result, or
    [None] when it raised. *)
Definition settled (outcome : res value) : value :=
  match outcome with
  | Ok v => v
  | Raise _ => VNone
  end.

(** A computation whose result and whose additions to the trace do not
    depend on the trace it starts from. *)
Definition framed {A} (m : M A) : Prop :=
  forall tr, m tr = (fst (m []), tr ++ snd (m [])).

(** A record after its own fetch has been awaited, and the events that
    fetch adds to the trace. *)
Definition enriched (fetch : string -> string -> M value) (repo : RepositoryInfo)
  : RepositoryInfo :=
  match owner_repo repo with
  | Ok (owner, repo_name) =>
      set_readme_content (settled (fst (fetch owner repo_name []))) repo
  | Raise _ => repo
  end.

Definition fetch_events (fetch : string -> string -> M value) (repo : RepositoryInfo)
  : list event :=
  match owner_repo repo with
  | Ok (owner, repo_name) => snd (fetch owner repo_name [])
  | Raise _ => []
  end.

(** The two implementations side by side. *)
Inductive implementation : Type := core_searcher | direct_searcher.

Definition to_repository_info_in (impl : implementation)
  : value -> res RepositoryInfo :=
  match impl with
  | core_searcher => Core.to_repository_info
  | direct_searcher => Direct.to_repository_info
  end.

Definition search_repositories_in (impl : implementation)
  : string -> (request -> http_result) -> string -> Z -> M (list RepositoryInfo) :=
  match impl with
  | core_searcher => Core.search_repositories
  | direct_searcher => Direct.search_repositories
  end.

Definition get_readme_content_in (impl : implementation)
  : string -> (request -> http_result) -> string -> string -> M value :=
  match impl with
  | core_searcher => Core.get_readme_content
  | direct_searcher => Direct.get_readme_content
  end.

Definition search_and_get_readmes_in (impl : implementation)
  : string -> (request -> http_result) -> string -> Z -> M (list RepositoryInfo) :=
  match impl with
  | core_searcher => Core.search_and_get_readmes
  | direct_searcher => Direct.search_and_get_readmes
  end.

(** What the conversion at the end of [search_repositories] makes of the
    accumulated raw items. *)
Definition finish_in (impl : implementation) (limit : Z) (all_repos : list value)
  : res (list RepositoryInfo) :=
  match impl with
  | core_searcher =>
      res_map Core.to_repository_info (Py.slice_to all_repos limit)
  | direct_searcher =>
      repositories ← res_map Direct.to_repository_info all_repos;
      repositories ← Direct.sort_by_stars repositories;
      Ok (Py.slice_to repositories limit)
  end.

(** A raw item, and a record, with a non-negative integer star count and
    a full name of the form owner/name. *)
Definition item_ok (item : value) : Prop :=
  exists n s,
    Py.getitem item "stargazers_count" = Ok (VInt n) ∧ 0 <= n
    ∧ Py.getitem item "full_name" = Ok (VStr s) ∧ Py.contains_slash s = true.

Definition record_ok (repo : RepositoryInfo) : Prop :=
  exists n s,
    stars repo = VInt n ∧ 0 <= n
    ∧ full_name repo = VStr s ∧ Py.contains_slash s = true.

(** [a] does not come below [b] in star count. *)
Definition not_below (a b : RepositoryInfo) : Prop :=
  Py.lt (stars a) (stars b) = Ok false.

(** Every field but [readme_content] agrees. *)
Definition same_but_readme (a b : RepositoryInfo) : Prop :=
  name a = name b ∧ full_name a = full_name b
  ∧ description a = description b ∧ stars a = stars b
  ∧ language a = language b ∧ url a = url b.

(** ** Sample upstreams *)
Module Samples.

Definition host : string := "https://api.github.com".

Definition raw_item (nm full : string) (stargazers : Z) : value :=
  VDict [("name", VStr nm); ("full_name", VStr full);
         ("description", VStr "Test repository");
         ("stargazers_count", VInt stargazers);
         ("language", VStr "Python");
         ("html_url", VStr ("https://github.com/" +:+ full))].

Definition record (nm full : string) (stargazers : Z) (readme : value)
  : RepositoryInfo :=
  {| name := VStr nm; full_name := VStr full;
     description := VStr "Test repository"; stars := VInt stargazers;
     language := VStr "Python";
     url := VStr ("https://github.com/" +:+ full);
     readme_content := readme |}.

Definition page_of (items : list value) : http_result :=
  Answer (mkResponse 200 (Ok (VDict [("items", VList items)])) (Ok "")).

Definition not_found : http_result :=
  Answer (mkResponse 404 (Ok (VDict [("message", VStr "Not Found")]))
            (Ok "Not Found")).

Definition is_page (n : Z) (req : request) : bool :=
  match Py.assoc "page" (req_params req) with
  | Some (VInt p) => p =? n
  | _ => false
  end.

(** One short page whose two items arrive in ascending star order. *)
Definition unsorted_upstream (req : request) : http_result :=
  if is_page 1 req
  then page_of [raw_item "a" "o/a" 1; raw_item "b" "o/b" 5]
  else not_found.

(** One item with a negative star count and no slash in its full name. *)
Definition odd_upstream (req : request) : http_result :=
  if is_page 1 req then page_of [raw_item "x" "noslash" (-1)] else not_found.

(** A full first page of a hundred items, then a server error. *)
Definition failing_upstream (req : request) : http_result :=
  if is_page 1 req
  then page_of (replicate 100 (raw_item "a" "o/a" 9))
  else Answer (mkResponse 503 (Raise JSONDecodeError) (Ok "unavailable")).

(** No connection at all. *)
Definition down_upstream (req : request) : http_result :=
  ConnError (ClientError "Cannot connect to host").

(** The repository and the README of tests/test_searcher.py. *)
Definition readme_body : value :=
  VDict [("content", VStr "SGVsbG8gV29ybGQ="); ("encoding", VStr "base64")].

Definition test_upstream (req : request) : http_result :=
  if String.eqb (req_url req) (host +:+ "/repos/test-owner/test-repo/readme")
  then Answer (mkResponse 200 (Ok readme_body) (Ok ""))
  else if is_page 1 req
       then page_of [raw_item "test-repo" "test-owner/test-repo" 100]
       else not_found.

End Samples.

(** ** Failing README endpoints *)

(** The ways in which the README endpoint of app/core/searcher.py fails:
    a transport exception, a non-success status, a body that is not
    JSON or not an object, or base64 content that does not decode. *)
Definition Core_readme_fails (r : http_result) : Prop :=
  match r with
  | ConnError _ => True
  | Answer a =>
      status a ≠ 200
      ∨ (exists e, json a = Raise e)
      ∨ (exists data, json a = Ok data
           ∧ match (content ← Py.get data "content" (VStr "");
                    encoding ← Py.get data "encoding" (VStr "base64");
                    Ok (content, encoding)) with
             | Raise _ => True
             | Ok (content, encoding) =>
                 Py.eq_str encoding "base64" = true
                 ∧ exists e, (raw ← Base64.b64decode content;
                              Base64.decode_utf8 raw) = Raise e
             end)
  end.

Definition download_fails (r : http_result) : Prop :=
  match r with
  | ConnError _ => True
  | Answer a => status a ≠ 200 ∨ exists e, text a = Raise e
  end.

(** The ways in which one file name of github_api_searcher.py fails: the
    contents endpoint fails, it names no usable download URL, or the
    download fails. *)
Definition contents_fails (up : request -> http_result) (r : http_result) : Prop :=
  match r with
  | ConnError _ => True
  | Answer a =>
      status a ≠ 200
      ∨ (exists e, json a = Raise e)
      ∨ (exists data, json a = Ok data
           ∧ match Py.get data "download_url" VNone with
             | Ok (VStr u) => u = "" ∨ download_fails (up (mkRequest u []))
             | _ => True
             end)
  end.

Definition readme_fails_in (impl : implementation) (host : string)
    (up : request -> http_result) (owner repo : string) : Prop :=
  match impl with
  | core_searcher => Core_readme_fails (up (Core.readme_request host owner repo))
  | direct_searcher =>
      forall file, In file Direct.readme_files ->
        contents_fails up (up (Direct.contents_request host owner repo file))
  end.

(** ** Vocabulary for the routes *)

(** The search routes: whether the README is fetched, the domain and
    the limit of the request. *)
Definition route_search (r : Routes.api_request) : option (bool * string * Z) :=
  match r with
  | Routes.PostSearch d l => Some (true, d, l)
  | Routes.GetSearch d l => Some (true, d, l)
  | Routes.GetSearchDomain d l => Some (true, d, l)
  | Routes.GetSearchNoReadme d l => Some (false, d, l)
  | _ => None
  end.

(** What the searcher hands back to a search route. *)
Definition searcher_outcome (token : option string) (host : string)
    (up : request -> http_result) (with_readme : bool) (domain : string)
    (limit : Z) (tr : list event) : res (list RepositoryInfo) :=
  fst ((Routes.new_searcher token;;
        if with_readme
        then Core.search_and_get_readmes host up domain limit
        else Core.search_repositories host up domain limit) tr).

(** The counters after a request has been served. *)
Definition stats_after (token : option string) (host : string)
    (up : request -> http_result) (validate : RepositoryInfo -> res unit)
    (r : Routes.api_request) (st : Routes.stats) (tr : list event) : Routes.stats :=
  fst (snd (Routes.serve token host up validate r (st, tr))).

(** ** Vocabulary for the order of the results *)

(** The star count as the integer the sort compares, when it is one. *)
Definition star_key (repo : RepositoryInfo) : option Z := Py.as_int (stars repo).

(** Raw item [a] does not come below raw item [b] in star count. *)
Definition item_not_below (a b : value) : Prop :=
  exists x y,
    Py.getitem a "stargazers_count" = Ok x
    ∧ Py.getitem b "stargazers_count" = Ok y
    ∧ Py.lt x y = Ok false.

(** ** Vocabulary for the README requests *)

(** The requests that a trace records. *)
Definition http_requests (tr : list event) : list request :=
  omap (fun ev => match ev with
                  | HttpGet req => Some req
                  | ReadmeCall _ _ => None
                  end) tr.

(** One file name of github_api_searcher.py resolves to [content]: the
    contents endpoint answers 200 with an object that names a download
    URL, and the download answers 200 with text. *)
Definition resolves (host : string) (up : request -> http_result)
    (owner repo file content : string) : Prop :=
  exists a d u b,
    up (Direct.contents_request host owner repo file) = Answer a
    ∧ status a = 200 ∧ json a = Ok (VDict d)
    ∧ Py.assoc "download_url" d = Some (VStr u) ∧ u ≠ ""
    ∧ up (mkRequest u []) = Answer b
    ∧ status b = 200 ∧ text b = Ok content.

(** The most requests one README fetch can make. *)
Definition fetch_cost (impl : implementation) : nat :=
  match impl with
  | core_searcher => 1
  | direct_searcher => 2 * length Direct.readme_files
  end.

(** ** More sample upstreams *)
Module Fixtures.

(** README.md is missing, README.rst resolves. *)
Definition rst_upstream (req : request) : http_result :=
  if String.eqb (req_url req) (Samples.host +:+ "/repos/o/r/contents/README.rst")
  then Answer (mkResponse 200
                 (Ok (VDict [("download_url", VStr "https://raw.example/o/r/README.rst")]))
                 (Ok ""))
  else if String.eqb (req_url req) "https://raw.example/o/r/README.rst"
       then Answer (mkResponse 200 (Raise JSONDecodeError) (Ok "Title"))
       else Samples.not_found.

(** Every request is answered 200 with an empty JSON object. *)
Definition empty_body_upstream (req : request) : http_result :=
  Answer (mkResponse 200 (Ok (VDict [])) (Ok "")).

(** One short page: a well-formed item, then one with a name only. *)
Definition ragged_upstream (req : request) : http_result :=
  if Samples.is_page 1 req
  then Samples.page_of [Samples.raw_item "a" "o/a" 3; VDict [("name", VStr "b")]]
  else Samples.not_found.


(** One short page whose two items arrive in descending star order. *)
Definition sorted_upstream (req : request) : http_result :=
  if Samples.is_page 1 req
  then Samples.page_of [Samples.raw_item "b" "o/b" 5; Samples.raw_item "a" "o/a" 1]
  else Samples.not_found.

End Fixtures.

(** ** The constructors *)
Module Searcher.

(** [s.rstrip('/')] *)
Fixpoint rstrip (s : string) : string :=
  match s with
  | EmptyString => EmptyString
  | String c s' =>
      match rstrip s' with
      | EmptyString => if Ascii.eqb c "/" then EmptyString else String c EmptyString
      | r => String c r
      end
  end.

(** Truth value of an [Optional[str]]. *)
Definition truthy (o : option string) : bool :=
  match o with
  | Some s => negb (String.eqb s "")
  | None => false
  end.

(** [a or b] *)
Definition or_else (a b : option string) : option string :=
  if truthy a then a else b.

(** The two settings that the searcher reads (app/config/settings.py). *)
Record Settings : Type := mkSettings {
  GITHUB_TOKEN : option string;
  GITHUB_HOST : string
}.

Record searcher : Type := mkSearcher {
  github_token : option string;
  github_host : string
}.

(** [GitHubAPISearcher.__init__] of app/core/searcher.py *)
Definition Core_init (settings : Settings) (token host : option string)
  : res searcher :=
  let github_token := or_else token (GITHUB_TOKEN settings) in
  let github_host :=
    rstrip (default "" (or_else host (Some (GITHUB_HOST settings)))) in
  if truthy github_token
  then Ok (mkSearcher github_token github_host)
  else Raise ValueError.

(** [GitHubAPISearcher.__init__] of github_api_searcher.py: the token is
    taken as it comes. *)
Definition Direct_init (token : string) (host : string) : searcher :=
  mkSearcher (Some token) (rstrip host).

Fixpoint slashes (k : nat) : string :=
  match k with
  | O => EmptyString
  | S k' => String "/" (slashes k')
  end.

Fixpoint last_char (s : string) : option ascii :=
  match s with
  | EmptyString => None
  | String c EmptyString => Some c
  | String _ s' => last_char s'
  end.

End Searcher.

(** ** Vocabulary for sequences of API requests *)

(** The sum of the per-domain counts. *)
Definition sum_counts (m : gmap string Z) : Z :=
  map_fold (fun _ v acc => v + acc) 0 m.

(** The counters agree with each other. *)
Definition stats_consistent (st : Routes.stats) : Prop :=
  Routes.total_searches st = sum_counts (Routes.searched_domains st)
  ∧ map_Forall (fun _ v => 1 <= v) (Routes.searched_domains st)
  ∧ 0 <= Routes.total_repositories_found st <= 100 * Routes.total_searches st.

(** The server answers a sequence of requests, each against the
    upstream as it is at that moment. *)
Fixpoint serve_all (token : option string) (host : string)
    (validate : RepositoryInfo -> res unit)
    (reqs : list ((request -> http_result) * Routes.api_request))
    (w : Routes.world) : Routes.world :=
  match reqs with
  | [] => w
  | (up, r) :: rest =>
      serve_all token host validate rest
        (snd (Routes.serve token host up validate r w))
  end.

(** ** api_server_direct.py: the routes over github_api_searcher.py *)
Module DirectServer.

(** A [Found] answer carries the [RepositoryResponse] objects that the
    route has built, which have the fields of a record. *)
Inductive reply : Type :=
| Found (domain : string) (repositories : list RepositoryInfo)
| Unavailable                  (* HTTPException 503 *)
| ServerError (e : exn)        (* HTTPException 500 from the handler *)
| Unhandled (e : exn).         (* an exception that leaves the handler *)

Section App.
Context (GITHUB_TOKEN : option string)      (* os.getenv('GITHUB_TOKEN') *)
        (upstream : request -> http_result)
        (* [RepositoryResponse(name=repo.name, ...)]: the framework
           validates the fields and may coerce them, or raises *)
        (RepositoryResponse : RepositoryInfo -> res RepositoryInfo).

(** The default host of [GitHubAPISearcher(github_token)]. *)
Definition github_host : string :=
  Searcher.github_host (Searcher.Direct_init "" "https://api.github.com").

(** [SearchRequest(domain=..., limit=...)]: the bounds [ge=1, le=100];
    the validation error is a [ValueError]. *)
Definition SearchRequest (domain : string) (limit : Z) : res (string * Z) :=
  if (1 <=? limit) && (limit <=? 100) then Ok (domain, limit)
  else Raise ValueError.

Definition search_repositories (request : string * Z) (tr : list event)
  : reply * list event :=
  let '(domain, limit) := request in
  if negb (Searcher.truthy GITHUB_TOKEN) then (Unavailable, tr)
  else
    match (repositories ←
             Direct.search_and_get_readmes github_host upstream domain limit;
           lift (res_map RepositoryResponse repositories)) tr with
    | (Ok repo_responses, tr') => (Found domain repo_responses, tr')
    | (Raise e, tr') => (ServerError e, tr')
    end.

Definition search_repositories_query (keywords : string) (limit : Z)
    (tr : list event) : reply * list event :=
  match SearchRequest keywords limit with
  | Ok request => search_repositories request tr
  | Raise e => (Unhandled e, tr)
  end.

Definition search_repositories_simple (domain : string) (limit : Z)
    (tr : list event) : reply * list event :=
  match SearchRequest domain limit with
  | Ok request => search_repositories request tr
  | Raise e => (Unhandled e, tr)
  end.

(** No bound on [limit] here: the parameter is a plain [int]. *)
Definition search_repositories_no_readme (domain : string) (limit : Z)
    (tr : list event) : reply * list event :=
  if negb (Searcher.truthy GITHUB_TOKEN) then (Unavailable, tr)
  else
    match (repositories ←
             Direct.search_repositories github_host upstream domain limit;
           lift (res_map RepositoryResponse
                   (map (set_readme_content VNone) repositories))) tr with
    | (Ok repo_responses, tr') => (Found domain repo_responses, tr')
    | (Raise e, tr') => (ServerError e, tr')
    end.

End App.
End DirectServer.

(** ** Well-formed upstream items *)

(** A repository object as the upstream documents it, as far as the
    conversion reads it: [name], [full_name] and [html_url] are there
    and [stargazers_count] is an integer. *)
Definition well_formed_item (item : value) : Prop :=
  exists d n,
    item = VDict d
    ∧ is_Some (Py.assoc "name" d)
    ∧ is_Some (Py.assoc "full_name" d)
    ∧ is_Some (Py.assoc "html_url" d)
    ∧ Py.assoc "stargazers_count" d = Some (VInt n).

Definition item_field (item : value) (key : string) (missing : value) : value :=
  match item with
  | VDict d => default missing (Py.assoc key d)
  | _ => missing
  end.

(** The record of a raw item, in the words of the specification: the
    fields are carried over, a missing description is the empty string
    and a missing language is "Unknown"; no README yet. *)
Definition record_of_item (item : value) : RepositoryInfo :=
  {| name := item_field item "name" VNone;
     full_name := item_field item "full_name" VNone;
     description := item_field item "description" (VStr "");
     stars := item_field item "stargazers_count" (VInt 0);
     language := item_field item "language" (VStr "Unknown");
     url := item_field item "html_url" VNone;
     readme_content := VNone |}.

(** Both star counts are integers and that of [a] is not the smaller. *)
Definition stars_ge (a b : RepositoryInfo) : Prop :=
  exists x y, stars a = VInt x ∧ stars b = VInt y ∧ y <= x.

(** * Properties *)

(** ** Running the monad *)

Ltac run :=
  unfold mbind, mret, M_bind, M_ret, res_bind, res_ret, lift, try_except,
    emit, session_get in *;
  simpl in *.

Lemma len_iter repos items :
  Py.iter repos = Ok items -> Py.len repos = Ok (Z.of_nat (length items)).
Proof.
  destruct repos; simpl; intros H; inversion H; subst; try done.
  - by rewrite length_map.
  - by rewrite length_map.
Qed.

(** ** The pagination loop *)

Lemma search_page_run host up q pp p acc tr :
  search_page host up q pp p acc tr =
  (Ok (page_ctl (up (search_request host q pp p)) pp,
       acc ++ page_items (up (search_request host q pp p))),
   tr ++ [HttpGet (search_request host q pp p)]).
Proof.
  unfold search_page, page_ctl, page_items, page_yield.
  run.
  destruct (up _) as [e|a]; simpl.
  - by rewrite app_nil_r.
  - destruct (status a =? 200).
    + destruct (json a) as [data|e]; simpl; [|by rewrite app_nil_r].
      destruct (Py.get data "items" (VList [])) as [repos|e]; simpl;
        [|by rewrite app_nil_r].
      destruct (Py.iter repos) as [items|e] eqn:Hit; simpl;
        [|by rewrite app_nil_r].
      rewrite (len_iter _ _ Hit). simpl.
      destruct (_ <? _); done.
    + destruct (text a); simpl; by rewrite app_nil_r.
Qed.

Section PaginationFacts.
Context (host : string) (up : request -> http_result)
        (domain : string) (limit : Z).

Local Abbreviation acc_ := (accumulated host up domain limit).
Local Abbreviation req_ := (page_request host domain limit).
Local Abbreviation resp_ := (page_response host up domain limit).
Local Abbreviation pp_ := (per_page_of limit).
Local Abbreviation stops_ := (stops_after host up domain limit).

Lemma accumulated_S j :
  acc_ (S j) = acc_ j ++ page_items (resp_ (S j)).
Proof.
  unfold accumulated. rewrite seq_S, map_app, concat_app. simpl.
  by rewrite app_nil_r.
Qed.

Lemma page_ctl_Break_iff (r : http_result) :
  0 < pp_ ->
  page_ctl r pp_ = Break <-> Z.of_nat (length (page_items r)) < pp_.
Proof.
  intros Hpp. unfold page_ctl, page_items.
  destruct (page_yield r) as [items|]; simpl.
  - destruct (Z.ltb_spec (Z.of_nat (length items)) pp_); split; (done || lia).
  - split; [lia | done].
Qed.

(** The loop from its head, [j] pages fetched so far. *)
Lemma search_loop_run fuel :
  forall (j : nat) tr,
    (j <= 3)%nat -> (3 <= j + fuel)%nat ->
    (j = 0%nat ∨ pp_ <= Z.of_nat (length (page_items (resp_ j)))) ->
    exists k : nat,
      (j <= k)%nat
      ∧ search_loop host up fuel limit pp_ (domain +:+ " sort:stars")
          (Z.of_nat (S j)) (acc_ j) tr
        = (Ok (acc_ k),
           tr ++ map (fun p => HttpGet (req_ p)) (seq (S j) (k - j)))
      ∧ stops_ k
      ∧ forall i, (j <= i < k)%nat -> ¬ stops_ i.
Proof.
  induction fuel as [|fuel IH]; intros j tr Hj Hfuel Hfull.
  - exists j. replace (j - j)%nat with 0%nat by lia. simpl.
    rewrite app_nil_r. repeat split; [lia | | lia].
    left. lia.
  - simpl.
    destruct (Z.ltb_spec (Z.of_nat (length (acc_ j))) (limit * 2)) as [Hacc|Hacc];
      simpl.
    2:{ exists j. replace (j - j)%nat with 0%nat by lia. simpl.
        rewrite app_nil_r. run. repeat split; [lia | | lia].
        right; left. lia. }
    destruct (Z.leb_spec (Z.of_nat (S j)) 3) as [Hp|Hp]; simpl.
    2:{ exists j. replace (j - j)%nat with 0%nat by lia. simpl.
        rewrite app_nil_r. run. repeat split; [lia | | lia].
        left. lia. }
    assert (Hpp : 0 < pp_) by (unfold per_page_of; lia).
    assert (Hnot : ¬ stops_ j).
    { intros [H3|[Hb|[H1 Hc]]]; [lia | lia | ].
      destruct Hfull as [->|Hfull]; lia. }
    unfold mbind at 1, M_bind at 1. rewrite search_page_run.
    fold (req_ (S j)). fold (resp_ (S j)).
    change (up (req_ (S j))) with (resp_ (S j)).
    rewrite <- accumulated_S.
    destruct (page_ctl (resp_ (S j)) pp_) eqn:Hctl.
    + destruct (IH (S j) (tr ++ [HttpGet (req_ (S j))])) as (k & Hk & Hrun & Hstop & Hmin).
      * lia.
      * lia.
      * right. destruct (Z.lt_ge_cases (Z.of_nat (length (page_items (resp_ (S j))))) pp_) as [Hlt|Hge]; [|lia].
        apply page_ctl_Break_iff in Hlt; [congruence | done].
      * exists k. split; [lia|]. split.
        { replace (Z.of_nat (S j) + 1) with (Z.of_nat (S (S j))) by lia.
          rewrite Hrun. f_equal. rewrite <- app_assoc. f_equal.
          replace (k - j)%nat with (S (k - S j)) by lia. done. }
        split; [done|].
        intros i Hi. destruct (decide (i = j)) as [->|Hne]; [done|].
        apply Hmin. lia.
    + exists (S j). split; [lia|]. split.
      { run. replace (S j - j)%nat with 1%nat by lia. done. }
      split.
      { right; right. split; [lia|].
        by apply page_ctl_Break_iff. }
      intros i Hi. replace i with j by lia. done.
Qed.

Lemma search_loop_S fuel q page acc :
  search_loop host up (S fuel) limit pp_ q page acc
  = if (Z.of_nat (length acc) <? limit * 2) && (page <=? 3) then
      '(c, acc') ← search_page host up q pp_ page acc;
      match c with
      | Break => mret acc'
      | Next => search_loop host up fuel limit pp_ q (page + 1) acc'
      end
    else mret acc.
Proof. reflexivity. Qed.

(** Three units of fuel are as good as any larger number: the loop never
    ends for want of fuel. *)
Lemma search_loop_fuel fuel :
  forall (j : nat) q acc tr,
    (3 <= j + fuel)%nat ->
    search_loop host up (S fuel) limit pp_ q (Z.of_nat (S j)) acc tr
    = search_loop host up fuel limit pp_ q (Z.of_nat (S j)) acc tr.
Proof.
  induction fuel as [|fuel IH]; intros j q acc tr Hfuel.
  - simpl. destruct (Z.leb_spec (Z.of_nat (S j)) 3); [lia|].
    by rewrite andb_false_r.
  - rewrite (search_loop_S (S fuel)), (search_loop_S fuel).
    destruct (_ && _); [|done].
    unfold mbind, M_bind. rewrite search_page_run.
    destruct (page_ctl _ _); [|done].
    replace (Z.of_nat (S j) + 1) with (Z.of_nat (S (S j))) by lia.
    apply IH. lia.
Qed.

Lemma search_pages_run tr :
  exists k : nat,
    search_pages host up domain limit tr
    = (Ok (acc_ k), tr ++ map (fun p => HttpGet (req_ p)) (seq 1 k))
    ∧ stops_ k
    ∧ forall j, (j < k)%nat -> ¬ stops_ j.
Proof.
  destruct (search_loop_run 3 0 tr) as (k & _ & Hrun & Hstop & Hmin);
    [lia | lia | by left |].
  exists k. split.
  - unfold search_pages. fold pp_.
    change 1 with (Z.of_nat 1). change (@nil value) with (acc_ 0).
    rewrite Hrun. by rewrite Nat.sub_0_r.
  - split; [done|]. intros j Hj. apply Hmin. lia.
Qed.

End PaginationFacts.

(** ** Frames *)

Lemma framed_ret {A} (a : A) : framed (mret a : M A).
Proof. intros tr. run. by rewrite app_nil_r. Qed.

Lemma framed_lift {A} (r : res A) : framed (lift r).
Proof. intros tr. run. by rewrite app_nil_r. Qed.

Lemma framed_emit ev : framed (emit ev).
Proof. intros tr. by run. Qed.

Lemma framed_session_get up req : framed (session_get up req).
Proof. intros tr. by run. Qed.

Lemma framed_bind {A B} (m : M A) (f : A -> M B) :
  framed m -> (forall a, framed (f a)) -> framed (m ≫= f).
Proof.
  intros Hm Hf tr. unfold mbind, M_bind.
  rewrite (Hm tr). destruct (m []) as [[a|e] ext]; simpl.
  - rewrite (Hf a (tr ++ ext)), (Hf a ext). simpl. by rewrite app_assoc.
  - done.
Qed.

Lemma framed_try_except {A} (m : M A) (h : exn -> M A) :
  framed m -> (forall e, framed (h e)) -> framed (try_except m h).
Proof.
  intros Hm Hh tr. unfold try_except.
  rewrite (Hm tr). destruct (m []) as [[a|e] ext]; simpl.
  - done.
  - rewrite (Hh e (tr ++ ext)), (Hh e ext). simpl. by rewrite app_assoc.
Qed.

Lemma framed_if {A} (b : bool) (m1 m2 : M A) :
  framed m1 -> framed m2 -> framed (if b then m1 else m2).
Proof. by destruct b. Qed.

Ltac framed_tac :=
  repeat match goal with
  | |- framed (mret _) => apply framed_ret
  | |- framed (lift _) => apply framed_lift
  | |- framed (emit _) => apply framed_emit
  | |- framed (session_get _ _) => apply framed_session_get
  | |- framed (try_except _ _) => apply framed_try_except; [|intros ?]
  | |- framed (mbind _ _) => apply framed_bind; [|intros ?]
  | |- framed (if _ then _ else _) => apply framed_if
  | |- framed (match ?x with _ => _ end) => destruct x
  end.

Lemma Core_get_readme_content_framed host up owner repo :
  framed (Core.get_readme_content host up owner repo).
Proof. unfold Core.get_readme_content. framed_tac. Qed.

Lemma Direct_try_readme_file_framed host up owner repo file :
  framed (Direct.try_readme_file host up owner repo file).
Proof. unfold Direct.try_readme_file, Direct.get_download. framed_tac. Qed.

Lemma Direct_readme_loop_framed host up owner repo files :
  framed (Direct.readme_loop host up owner repo files).
Proof.
  induction files as [|file files IH]; simpl.
  - apply framed_ret.
  - apply framed_bind; [apply Direct_try_readme_file_framed|].
    intros [content|]; [apply framed_ret | apply IH].
Qed.

Lemma Direct_get_readme_content_framed host up owner repo :
  framed (Direct.get_readme_content host up owner repo).
Proof.
  unfold Direct.get_readme_content.
  apply framed_bind; [apply framed_emit|]. intros _.
  apply Direct_readme_loop_framed.
Qed.

(** ** Splitting [full_name] *)

Lemma split_slash_spec s :
  if Py.contains_slash s
  then exists a b, Py.split_slash s = [a; b]
  else Py.split_slash s = [s].
Proof.
  induction s as [|c s IH]; simpl; [done|].
  destruct (Ascii.eqb c "/"); simpl; [by eauto|].
  destruct (Py.contains_slash s).
  - destruct IH as (a & b & ->). by eauto.
  - by rewrite IH.
Qed.

Lemma owner_repo_splittable repo :
  splittable repo -> exists owner name, owner_repo repo = Ok (owner, name).
Proof.
  intros (s & Hs & Hc). unfold owner_repo. rewrite Hs. simpl.
  pose proof (split_slash_spec s) as H. rewrite Hc in H.
  destruct H as (a & b & ->). by eauto.
Qed.

Lemma owner_repo_not_splittable repo :
  ¬ splittable repo ->
  owner_repo repo = Raise ValueError ∨ owner_repo repo = Raise AttributeError.
Proof.
  intros Hn. unfold owner_repo.
  destruct (full_name repo) as [| | |s| |] eqn:Hf; simpl; auto.
  pose proof (split_slash_spec s) as H.
  destruct (Py.contains_slash s) eqn:Hc.
  - destruct Hn. by exists s.
  - rewrite H. simpl. by left.
Qed.

Lemma owner_repo_Ok_splittable repo p :
  owner_repo repo = Ok p -> splittable repo.
Proof.
  unfold owner_repo, splittable.
  destruct (full_name repo) as [| | |s| |]; simpl; try done.
  intros H. exists s. split; [done|].
  pose proof (split_slash_spec s) as Hs.
  destruct (Py.contains_slash s); [done|].
  rewrite Hs in H. done.
Qed.

(** ** The two loops of [search_and_get_readmes] *)

Section EnrichFacts.
Context (search : string -> Z -> M (list RepositoryInfo))
        (fetch : string -> string -> M value)
        (fetch_framed : forall owner repo, framed (fetch owner repo)).

Lemma make_tasks_Ok repos :
  Forall splittable repos ->
  forall i, exists tasks, make_tasks fetch i repos = Ok tasks.
Proof.
  induction 1 as [|repo repos Hs _ IH]; intros i; simpl; [by eauto|].
  apply owner_repo_splittable in Hs as (owner & nm & Hs).
  unfold owner_repo in Hs.
  destruct (Py.split (full_name repo)) as [parts|]; simpl in *; [|done].
  rewrite Hs. simpl.
  destruct (IH (S i)) as (tasks & ->). simpl. by eauto.
Qed.

Lemma make_tasks_Raise repos :
  Exists (fun repo => ¬ splittable repo) repos ->
  forall i, exists e, make_tasks fetch i repos = Raise e
                      ∧ (e = ValueError ∨ e = AttributeError).
Proof.
  induction repos as [|repo repos IH]; intros Hex i; [by inversion Hex|].
  simpl.
  destruct (owner_repo repo) as [[owner nm]|e] eqn:Hor.
  - assert (Hrest : Exists (fun repo => ¬ splittable repo) repos).
    { inversion Hex as [? ? Hn|]; subst; [|done].
      destruct Hn. by eapply owner_repo_Ok_splittable. }
    unfold owner_repo in Hor.
    destruct (Py.split (full_name repo)) as [parts|]; simpl in *; [|done].
    rewrite Hor. simpl.
    destruct (IH Hrest (S i)) as (e & -> & He). simpl. by eauto.
  - assert (He : e = ValueError ∨ e = AttributeError).
    { unfold owner_repo in Hor.
      destruct (full_name repo); simpl in Hor; try (inversion Hor; by auto).
      destruct (Py.split_slash s) as [|a [|b [|c l]]]; simpl in Hor;
        inversion Hor; by auto. }
    unfold owner_repo in Hor.
    destruct (Py.split (full_name repo)) as [parts|]; simpl in *.
    + rewrite Hor. simpl. by eauto.
    + inversion Hor; subst. by eauto.
Qed.

Lemma await_make_tasks rest :
  forall pre tasks tr,
    make_tasks fetch (length pre) rest = Ok tasks ->
    await_tasks tasks (pre ++ rest) tr
    = (Ok (pre ++ map (enriched fetch) rest),
       tr ++ concat (map (fetch_events fetch) rest)).
Proof.
  induction rest as [|repo rest IH]; intros pre tasks tr Hmk; simpl in *.
  - inversion Hmk; subst. simpl. run. by rewrite !app_nil_r.
  - unfold enriched at 1, fetch_events at 1. unfold owner_repo.
    destruct (Py.split (full_name repo)) as [parts|]; simpl in *; [|done].
    destruct (Py.unpack2 parts) as [[owner nm]|]; simpl in *; [|done].
    destruct (make_tasks fetch (S (length pre)) rest) as [tasks'|] eqn:Hrest;
      simpl in *; [|done].
    inversion Hmk; subst. simpl.
    unfold mbind at 1, M_bind at 1, try_except.
    rewrite (fetch_framed owner nm tr).
    assert (Hst : forall v, alter (set_readme_content v) (length pre) (pre ++ repo :: rest)
                  = (pre ++ [set_readme_content v repo]) ++ rest).
    { intros v. rewrite <- app_assoc. simpl.
      replace (length pre) with (length pre + 0)%nat at 1 by lia.
      by rewrite alter_app_r. }
    destruct (fetch owner nm []) as [[v|e] ext]; simpl.
    + rewrite Hst. rewrite (IH (pre ++ [set_readme_content v repo]) tasks').
      * by rewrite <- !app_assoc.
      * rewrite length_app. simpl. by rewrite Nat.add_1_r.
    + unfold mret, M_ret. rewrite Hst.
      rewrite (IH (pre ++ [set_readme_content VNone repo]) tasks').
      * by rewrite <- !app_assoc.
      * rewrite length_app. simpl. by rewrite Nat.add_1_r.
Qed.

Lemma enrich_ok domain limit tr repos tr1 :
  search domain limit tr = (Ok repos, tr1) ->
  Forall splittable repos ->
  search_and_get_readmes_of search fetch domain limit tr
  = (Ok (map (enriched fetch) repos),
     tr1 ++ concat (map (fetch_events fetch) repos)).
Proof.
  intros Hsearch Hall. unfold search_and_get_readmes_of.
  unfold mbind at 1, M_bind at 1. rewrite Hsearch.
  destruct (make_tasks_Ok repos Hall 0) as (tasks & Hmk).
  unfold mbind, M_bind, lift. rewrite Hmk.
  apply (await_make_tasks repos [] tasks tr1 Hmk).
Qed.

Lemma enrich_abort domain limit tr repos tr1 :
  search domain limit tr = (Ok repos, tr1) ->
  Exists (fun repo => ¬ splittable repo) repos ->
  exists e,
    search_and_get_readmes_of search fetch domain limit tr = (Raise e, tr1)
    ∧ (e = ValueError ∨ e = AttributeError).
Proof.
  intros Hsearch Hex. unfold search_and_get_readmes_of.
  unfold mbind at 1, M_bind at 1. rewrite Hsearch.
  destruct (make_tasks_Raise repos Hex 0) as (e & Hmk & He).
  unfold mbind, M_bind, lift. rewrite Hmk. by eauto.
Qed.

Lemma enrich_search_raises domain limit tr e tr1 :
  search domain limit tr = (Raise e, tr1) ->
  search_and_get_readmes_of search fetch domain limit tr = (Raise e, tr1).
Proof.
  intros Hsearch. unfold search_and_get_readmes_of.
  unfold mbind at 1, M_bind at 1. by rewrite Hsearch.
Qed.

End EnrichFacts.

(** ** Conversion and truncation *)

Lemma res_map_Ok {A B} (f : A -> res B) l ys :
  res_map f l = Ok ys -> Forall2 (fun x y => f x = Ok y) l ys.
Proof.
  revert ys. induction l as [|x l IH]; intros ys H; simpl in H.
  - inversion H. constructor.
  - destruct (f x) as [y|] eqn:Hx; simpl in H; [|done].
    destruct (res_map f l) as [ys'|]; simpl in H; [|done].
    inversion H; subst. constructor; auto.
Qed.

Lemma res_map_total {A B} (f : A -> res B) l :
  Forall (fun x => exists y, f x = Ok y) l -> exists ys, res_map f l = Ok ys.
Proof.
  induction 1 as [|x l [y Hy] _ [ys IH]]; simpl; [by eauto|].
  rewrite Hy, IH. simpl. by eauto.
Qed.

Lemma slice_to_length {A} (l : list A) n :
  0 <= n -> Z.of_nat (length (Py.slice_to l n)) <= n.
Proof.
  intros Hn. unfold Py.slice_to.
  destruct (Z.leb_spec 0 n); [|lia]. rewrite length_take. lia.
Qed.

Lemma slice_to_Forall {A} (P : A -> Prop) (l : list A) n :
  Forall P l -> Forall P (Py.slice_to l n).
Proof. intros H. unfold Py.slice_to. destruct (0 <=? n); by apply Forall_take. Qed.

Lemma search_repositories_run impl host up domain limit tr all_repos tr' :
  search_pages host up domain limit tr = (Ok all_repos, tr') ->
  search_repositories_in impl host up domain limit tr
  = (finish_in impl limit all_repos, tr').
Proof.
  intros Hp. destruct impl; simpl;
    unfold Core.search_repositories, Direct.search_repositories;
    unfold mbind at 1, M_bind at 1; rewrite Hp; run; [done|].
  destruct (res_map _ _); simpl; [|done].
  destruct (Direct.sort_by_stars _); done.
Qed.

Lemma to_repository_info_item_ok impl item repo :
  to_repository_info_in impl item = Ok repo -> item_ok item -> record_ok repo.
Proof.
  intros Hto (n & s & Hst & Hn & Hfn & Hs).
  destruct item as [| | | | |d]; try done. simpl in Hst, Hfn.
  destruct (Py.assoc "stargazers_count" d) as [st|] eqn:Est; [|done].
  destruct (Py.assoc "full_name" d) as [fn|] eqn:Efn; [|done].
  inversion Hst; inversion Hfn; subst.
  exists n, s.
  destruct impl; simpl in Hto;
    unfold Core.to_repository_info, Direct.to_repository_info in Hto;
    simpl in Hto; rewrite Est, Efn in Hto;
    destruct (Py.assoc "name" d); simpl in Hto; try done;
    destruct (Py.assoc "description" d); simpl in Hto;
    destruct (Py.assoc "language" d); simpl in Hto;
    destruct (Py.assoc "html_url" d); simpl in Hto; try done;
    inversion Hto; subst; simpl; done.
Qed.

(** ** The local sort of github_api_searcher.py *)

Lemma str_ltb_asym s : forall t, Py.str_ltb s t = true -> Py.str_ltb t s = false.
Proof.
  induction s as [|a s IH]; intros [|b t]; simpl; try done.
  destruct (Z.ltb_spec (Py.byte_val a) (Py.byte_val b)),
           (Z.ltb_spec (Py.byte_val b) (Py.byte_val a)); try done; try lia.
  apply IH.
Qed.

Lemma str_ltb_neg_trans s :
  forall t u, Py.str_ltb s t = false -> Py.str_ltb t u = false ->
              Py.str_ltb s u = false.
Proof.
  induction s as [|a s IH]; intros [|b t] [|c u]; simpl; try done.
  destruct (Z.ltb_spec (Py.byte_val a) (Py.byte_val b)),
           (Z.ltb_spec (Py.byte_val b) (Py.byte_val a)),
           (Z.ltb_spec (Py.byte_val b) (Py.byte_val c)),
           (Z.ltb_spec (Py.byte_val c) (Py.byte_val b)),
           (Z.ltb_spec (Py.byte_val a) (Py.byte_val c)),
           (Z.ltb_spec (Py.byte_val c) (Py.byte_val a));
    try done; try lia.
  apply IH.
Qed.

Lemma lt_asym a b : Py.lt a b = Ok true -> Py.lt b a = Ok false.
Proof.
  unfold Py.lt.
  destruct (Py.as_int a) as [x|] eqn:Ha, (Py.as_int b) as [y|] eqn:Hb.
  - intros H. inversion H. f_equal. lia.
  - destruct a, b; simpl in *; done.
  - destruct a, b; simpl in *; done.
  - destruct a, b; simpl in *; try done.
    intros H. inversion H as [H']. f_equal. by apply str_ltb_asym.
Qed.

#[local] Instance not_below_trans : Transitive not_below.
Proof.
  intros a b c. unfold not_below, Py.lt.
  destruct (stars a) as [| | |s| |], (stars b) as [| | |t| |],
           (stars c) as [| | |u| |]; simpl; try done;
    intros H1 H2; injection H1 as H1; injection H2 as H2; f_equal;
    try lia.
  by apply (str_ltb_neg_trans s t u).
Qed.

Lemma insert_by_stars_spec x l :
  forall l', Direct.insert_by_stars x l = Ok l' ->
    Permutation l' (x :: l)
    ∧ (Sorted not_below l -> Sorted not_below l')
    ∧ (forall y, HdRel not_below y l -> not_below y x -> HdRel not_below y l').
Proof.
  induction l as [|y l IH]; intros l' H; simpl in H.
  - inversion H; subst. repeat split; auto.
  - destruct (Py.lt (stars x) (stars y)) as [[|]|] eqn:Hlt; simpl in H; [| |done].
    + destruct (Direct.insert_by_stars x l) as [r|] eqn:Hr; simpl in H; [|done].
      inversion H; subst.
      destruct (IH r eq_refl) as (Hperm & Hsorted & Hhd).
      split; [|split].
      * rewrite Hperm. apply perm_swap.
      * intros Hs. inversion Hs; subst. constructor; [auto|].
        apply Hhd; [done|]. by apply lt_asym.
      * intros z Hz _. inversion Hz; subst. by constructor.
    + inversion H; subst. split; [done|]. split.
      * intros Hs. constructor; [done|]. by constructor.
      * intros z _ Hzx. by constructor.
Qed.

Lemma sort_by_stars_spec l :
  forall l', Direct.sort_by_stars l = Ok l' ->
    Permutation l' l ∧ StronglySorted not_below l'.
Proof.
  induction l as [|x l IH]; intros l' H; simpl in H.
  - inversion H. split; [done | constructor].
  - destruct (Direct.sort_by_stars l) as [s|]; simpl in H; [|done].
    destruct (IH s eq_refl) as [Hperm Hs].
    destruct (insert_by_stars_spec x s l' H) as (Hperm' & Hsorted & _).
    split.
    + by rewrite Hperm', Hperm.
    + apply Sorted_StronglySorted; [apply not_below_trans|].
      apply Hsorted. by apply StronglySorted_Sorted.
Qed.

Lemma StronglySorted_take {A} (R : A -> A -> Prop) n l :
  StronglySorted R l -> StronglySorted R (take n l).
Proof.
  intros H. revert n. induction H as [|x l Hs IH Hall]; intros [|n]; simpl;
    try constructor; auto.
  by apply Forall_take.
Qed.

(** The output of the github_api_searcher.py search is in descending
    order of star count, whatever order the pages arrived in. *)
Lemma Direct_search_repositories_sorted host up domain limit tr repos tr' :
  Direct.search_repositories host up domain limit tr = (Ok repos, tr') ->
  StronglySorted not_below repos.
Proof.
  destruct (search_pages_run host up domain limit tr) as (k & Hrun & _).
  pose proof (search_repositories_run direct_searcher _ _ _ _ _ _ _ Hrun) as Hr.
  simpl in Hr. rewrite Hr. intros H. inversion H as [[Hfin Htr]]. clear H.
  destruct (res_map _ _) as [rs|]; simpl in Hfin; [|done].
  destruct (Direct.sort_by_stars rs) as [s|] eqn:Hs; simpl in Hfin; [|done].
  inversion Hfin; subst.
  apply sort_by_stars_spec in Hs as [_ Hs].
  unfold Py.slice_to. destruct (0 <=? limit); by apply StronglySorted_take.
Qed.

(** With integer star counts this is the order of the integers. *)
Lemma not_below_int a b x y :
  stars a = VInt x -> stars b = VInt y -> not_below a b -> y <= x.
Proof.
  unfold not_below. intros -> ->. simpl. intros H. inversion H. lia.
Qed.

(** ** Search: the claims *)


Lemma page_failed_no_items r : page_failed r -> page_items r = [].
Proof.
  unfold page_items, page_yield. destruct r as [e|a]; simpl; [done|].
  intros H. destruct (Z.eqb_spec (status a) 200); done.
Qed.

Lemma accumulated_Forall host up domain limit (P : value -> Prop) k :
  (forall req, Forall P (page_items (up req))) ->
  Forall P (accumulated host up domain limit k).
Proof.
  intros H. unfold accumulated. apply Forall_concat, Forall_map.
  apply Forall_forall. intros p _. apply H.
Qed.

Lemma insert_by_stars_total x l :
  (exists n, stars x = VInt n) ->
  Forall (fun r => exists n, stars r = VInt n) l ->
  exists l', Direct.insert_by_stars x l = Ok l'.
Proof.
  intros [n Hn]. induction 1 as [|y l [m Hm] _ [l' IH]]; simpl; [by eauto|].
  rewrite Hn, Hm. simpl. destruct (n <? m); [|by eauto].
  rewrite IH. simpl. by eauto.
Qed.

Lemma sort_by_stars_total l :
  Forall (fun r => exists n, stars r = VInt n) l ->
  exists l', Direct.sort_by_stars l = Ok l'.
Proof.
  induction 1 as [|x l Hx Hl [s IH]]; simpl; [by eauto|].
  rewrite IH. simpl. apply insert_by_stars_total; [done|].
  apply sort_by_stars_spec in IH as [Hperm _].
  by rewrite Hperm.
Qed.

Lemma finish_in_total impl limit all_repos :
  Forall (fun item => exists repo n,
            to_repository_info_in impl item = Ok repo ∧ stars repo = VInt n)
         all_repos ->
  exists repos, finish_in impl limit all_repos = Ok repos.
Proof.
  intros Hall. destruct impl; simpl.
  - apply res_map_total, slice_to_Forall.
    eapply Forall_impl; [exact Hall|]. intros item (repo & n & H & _). by eauto.
  - destruct (res_map_total Direct.to_repository_info all_repos) as [rs Hrs].
    { eapply Forall_impl; [exact Hall|]. intros item (repo & n & H & _). by eauto. }
    rewrite Hrs. simpl.
    destruct (sort_by_stars_total rs) as [s Hs].
    { apply res_map_Ok in Hrs. clear -Hrs Hall.
      induction Hrs as [|item repo l l' Hto _ IH]; [constructor|].
      inversion Hall as [|? ? (repo' & n & Hto' & Hn) Hrest]; subst.
      constructor; [|by apply IH].
      simpl in Hto'. rewrite Hto in Hto'. inversion Hto'; subst. by eauto. }
    rewrite Hs. simpl. by eauto.
Qed.

(** C1, as the code has it. For every domain, every limit that is not
    negative (so every valid limit in [1,100]) and every upstream: when
    [search_repositories] returns, it returns at most [limit] records;
    each record is the conversion of a raw item that some page delivered;
    and so the records have a non-negative star count and an owner/name
    full name whenever every raw item of the upstream has. *)
Theorem search_repositories_at_most_limit impl host up domain limit tr repos tr' :
  0 <= limit ->
  search_repositories_in impl host up domain limit tr = (Ok repos, tr') ->
  Z.of_nat (length repos) <= limit
  ∧ Forall (fun repo => exists req item,
              In item (page_items (up req))
              ∧ to_repository_info_in impl item = Ok repo) repos
  ∧ ((forall req, Forall item_ok (page_items (up req))) -> Forall record_ok repos).
Proof.
  intros Hlimit Hsearch.
  destruct (search_pages_run host up domain limit tr) as (k & Hrun & _).
  rewrite (search_repositories_run impl _ _ _ _ _ _ _ Hrun) in Hsearch.
  injection Hsearch as Hfin _.
  set (from_page := fun repo : RepositoryInfo => exists req item,
         In item (page_items (up req))
         ∧ to_repository_info_in impl item = Ok repo).
  assert (Hacc : Forall (fun item => exists req, In item (page_items (up req)))
                   (accumulated host up domain limit k)).
  { unfold accumulated. apply Forall_concat, Forall_map, Forall_forall.
    intros p _. apply Forall_forall. intros item Hin.
    exists (page_request host domain limit p). by apply list_elem_of_In. }
  assert (Hconv : forall (l : list value) (rs : list RepositoryInfo),
             Forall (fun item => exists req, In item (page_items (up req))) l ->
             res_map (to_repository_info_in impl) l = Ok rs ->
             Forall from_page rs).
  { intros l rs Hl Hmap. apply res_map_Ok in Hmap.
    induction Hmap as [|item repo l0 rs0 Hto _ IH]; [constructor|].
    inversion Hl as [|? ? [req Hin] Hrest]; subst.
    constructor; [by exists req, item | by apply IH]. }
  assert (Hlen_prov : Z.of_nat (length repos) <= limit ∧ Forall from_page repos).
  { destruct impl; simpl in Hfin.
    - split.
      + apply res_map_Ok, Forall2_length in Hfin. rewrite <- Hfin.
        by apply slice_to_length.
      + apply (Hconv (Py.slice_to (accumulated host up domain limit k) limit));
          [by apply slice_to_Forall | done].
    - destruct (res_map Direct.to_repository_info _) as [rs|] eqn:Hrs;
        simpl in Hfin; [|done].
      destruct (Direct.sort_by_stars rs) as [s|] eqn:Hs; simpl in Hfin; [|done].
      injection Hfin as <-. split; [by apply slice_to_length|].
      apply slice_to_Forall.
      apply sort_by_stars_spec in Hs as [Hperm _]. rewrite Hperm.
      by apply (Hconv (accumulated host up domain limit k)). }
  destruct Hlen_prov as [Hlen Hprov].
  split; [done|]. split; [done|].
  intros Hok. eapply Forall_impl; [exact Hprov|].
  intros repo (req & item & Hin & Hto).
  apply (to_repository_info_item_ok impl item repo Hto).
  pose proof (Hok req) as Hreq. rewrite Forall_forall in Hreq.
  apply Hreq. by apply list_elem_of_In.
Qed.

Lemma search_repositories_at_most_limit_witness :
  0 <= 1
  ∧ search_repositories_in core_searcher Samples.host Samples.test_upstream
      "test" 1 []
    = (Ok [Samples.record "test-repo" "test-owner/test-repo" 100 VNone],
       [HttpGet (page_request Samples.host "test" 1 1)])
  ∧ Z.of_nat (length [Samples.record "test-repo" "test-owner/test-repo" 100 VNone]) <= 1.
Proof.
  split; [lia|]. split; [reflexivity|].
  apply (search_repositories_at_most_limit core_searcher Samples.host
           Samples.test_upstream "test" 1 []
           [Samples.record "test-repo" "test-owner/test-repo" 100 VNone]
           [HttpGet (page_request Samples.host "test" 1 1)]);
    [lia | reflexivity].
Defined.

(** C1 as stated fails: the limit is valid and the search returns a
    record whose star count is negative and whose full name has no
    slash, because the upstream item has them so. *)
Lemma search_repositories_record_not_ok :
  1 <= 1 <= 100
  ∧ fst (Core.search_repositories Samples.host Samples.odd_upstream "test" 1 [])
    = Ok [Samples.record "x" "noslash" (-1) VNone]
  ∧ ¬ record_ok (Samples.record "x" "noslash" (-1) VNone).
Proof.
  split; [lia|]. split; [reflexivity|].
  intros (n & s & Hn & Hpos & Hs & Hc). simpl in *.
  inversion Hn; subst. lia.
Qed.

(** C2 at a failing input. The upstream hands out one page whose items
    have 1 and 5 stars, in that order. app/core/searcher.py returns them
    in arrival order, ascending; github_api_searcher.py sorts them. *)
Theorem Core_search_repositories_arrival_order :
  fst (Core.search_repositories Samples.host Samples.unsorted_upstream "test" 2 [])
  = Ok [Samples.record "a" "o/a" 1 VNone; Samples.record "b" "o/b" 5 VNone]
  ∧ ¬ not_below (Samples.record "a" "o/a" 1 VNone) (Samples.record "b" "o/b" 5 VNone)
  ∧ fst (Direct.search_repositories Samples.host Samples.unsorted_upstream "test" 2 [])
    = Ok [Samples.record "b" "o/b" 5 VNone; Samples.record "a" "o/a" 1 VNone].
Proof. split; [reflexivity|]. split; [|reflexivity]. intros H. inversion H. Qed.

(** C5. Every request asks for [min(100, limit * 2)] items per page;
    the pages requested are 1, 2, ..., k in this order; and k is the
    first count of pages after which three pages have been fetched, or
    the accumulated items are at least [limit * 2], or the last page
    yielded fewer items than the page size. (A page that ends in the
    error or exception branch yields no item.) *)
Theorem search_repositories_pagination impl host up domain limit tr :
  exists k : nat,
    snd (search_repositories_in impl host up domain limit tr)
    = tr ++ map (fun p => HttpGet (page_request host domain limit p)) (seq 1 k)
    ∧ (forall p, Py.assoc "per_page" (req_params (page_request host domain limit p))
                 = Some (VInt (Z.min 100 (limit * 2)))
               ∧ Py.assoc "page" (req_params (page_request host domain limit p))
                 = Some (VInt (Z.of_nat p)))
    ∧ search_pages host up domain limit tr
      = (Ok (accumulated host up domain limit k),
         tr ++ map (fun p => HttpGet (page_request host domain limit p)) (seq 1 k))
    ∧ stops_after host up domain limit k
    ∧ forall j, (j < k)%nat -> ¬ stops_after host up domain limit j.
Proof.
  destruct (search_pages_run host up domain limit tr) as (k & Hrun & Hstop & Hmin).
  exists k. split.
  { by rewrite (search_repositories_run impl _ _ _ _ _ _ _ Hrun). }
  split; [by intros p|]. done.
Qed.

(** ** Well-formed items *)

Lemma to_repository_info_well_formed impl item :
  well_formed_item item ->
  to_repository_info_in impl item = Ok (record_of_item item)
  ∧ exists n, stars (record_of_item item) = VInt n.
Proof.
  intros (d & n & -> & [vn Hn] & [vf Hf] & [vu Hu] & Hs).
  unfold record_of_item, item_field. rewrite Hn, Hf, Hu, Hs. simpl.
  split; [|by eauto].
  destruct impl; simpl;
    unfold Core.to_repository_info, Direct.to_repository_info; simpl;
    rewrite Hn, Hf, Hu, Hs; simpl;
    destruct (Py.assoc "description" d), (Py.assoc "language" d); reflexivity.
Qed.

Lemma res_map_well_formed impl l :
  Forall well_formed_item l ->
  res_map (to_repository_info_in impl) l = Ok (map record_of_item l).
Proof.
  induction 1 as [|item l Hwf _ IH]; simpl; [done|].
  destruct (to_repository_info_well_formed impl item Hwf) as [-> _]. simpl.
  by rewrite IH.
Qed.

Lemma record_of_item_int_stars l :
  Forall well_formed_item l ->
  Forall (fun r => exists n, stars r = VInt n) (map record_of_item l).
Proof.
  intros H. apply Forall_map. eapply Forall_impl; [exact H|].
  intros item Hwf. by apply (to_repository_info_well_formed core_searcher).
Qed.

Lemma not_below_stars_ge a b :
  (exists n, stars a = VInt n) -> (exists m, stars b = VInt m) ->
  not_below a b -> stars_ge a b.
Proof.
  intros [n Hn] [m Hm] H. exists n, m. split; [done|]. split; [done|].
  by apply (not_below_int a b n m).
Qed.

Lemma StronglySorted_stars_ge l :
  Forall (fun r => exists n, stars r = VInt n) l ->
  StronglySorted not_below l -> StronglySorted stars_ge l.
Proof.
  intros Hint Hs. induction Hs as [|a l Hs IH Hall]; [constructor|].
  inversion Hint as [|? ? Ha Hl]; subst.
  constructor; [by apply IH|].
  rewrite Forall_forall in Hall, Hl |- *. intros b Hb.
  apply not_below_stars_ge; [done | by apply Hl | by apply Hall].
Qed.

(** The end of github_api_searcher.py's search on well-formed items: it
    returns, and the sorted list it truncates holds the records of all
    the items in descending order of star count. *)
Lemma finish_direct_well_formed limit all_repos :
  Forall well_formed_item all_repos ->
  exists sorted,
    finish_in direct_searcher limit all_repos = Ok (Py.slice_to sorted limit)
    ∧ Permutation sorted (map record_of_item all_repos)
    ∧ StronglySorted stars_ge sorted.
Proof.
  intros Hwf. simpl.
  pose proof (res_map_well_formed direct_searcher all_repos Hwf) as Hmap.
  simpl in Hmap. rewrite Hmap. simpl.
  pose proof (record_of_item_int_stars all_repos Hwf) as Hint.
  destruct (sort_by_stars_total _ Hint) as [sorted Hsort].
  rewrite Hsort. simpl. exists sorted. split; [done|].
  destruct (sort_by_stars_spec _ _ Hsort) as [Hperm Hsorted].
  split; [done|].
  apply StronglySorted_stars_ge; [|done]. by rewrite Hperm.
Qed.


(** The top of a list in descending order. *)
Lemma top_of_sorted (sorted : list RepositoryInfo) m :
  StronglySorted stars_ge sorted ->
  StronglySorted stars_ge (take m sorted)
  ∧ (forall r r', r ∈ take m sorted -> r' ∈ drop m sorted -> stars_ge r r').
Proof.
  intros Hs. rewrite <- (take_drop m sorted) in Hs.
  apply StronglySorted_app in Hs as (Hcross & Htake & _). done.
Qed.




(** C8. A raw record that carries [name], [full_name] and [html_url] is
    mapped to the record with these values; [description] is the empty
    string when the key is missing and the value under the key
    otherwise, [language] likewise with "Unknown". The star count is the
    value under [stargazers_count] (app/core/searcher.py falls back to 0
    when the key is missing, github_api_searcher.py requires it). *)
Theorem to_repository_info_defaults (d : list (string * value)) v_name v_full v_url :
  Py.assoc "name" d = Some v_name ->
  Py.assoc "full_name" d = Some v_full ->
  Py.assoc "html_url" d = Some v_url ->
  Core.to_repository_info (VDict d)
  = Ok {| name := v_name; full_name := v_full;
          description := default (VStr "") (Py.assoc "description" d);
          stars := default (VInt 0) (Py.assoc "stargazers_count" d);
          language := default (VStr "Unknown") (Py.assoc "language" d);
          url := v_url; readme_content := VNone |}
  ∧ (forall v_stars,
       Py.assoc "stargazers_count" d = Some v_stars ->
       Direct.to_repository_info (VDict d)
       = Ok {| name := v_name; full_name := v_full;
               description := default (VStr "") (Py.assoc "description" d);
               stars := v_stars;
               language := default (VStr "Unknown") (Py.assoc "language" d);
               url := v_url; readme_content := VNone |}).
Proof.
  intros Hname Hfull Hurl.
  unfold Core.to_repository_info, Direct.to_repository_info. simpl.
  rewrite Hname, Hfull, Hurl. simpl. split.
  - destruct (Py.assoc "description" d), (Py.assoc "stargazers_count" d),
      (Py.assoc "language" d); reflexivity.
  - intros v_stars ->. simpl.
    destruct (Py.assoc "description" d), (Py.assoc "language" d); reflexivity.
Qed.

Lemma to_repository_info_defaults_witness :
  let d := [("name", VStr "r"); ("full_name", VStr "o/r");
            ("stargazers_count", VInt 3); ("html_url", VStr "u")] in
  Py.assoc "name" d = Some (VStr "r")
  ∧ Py.assoc "full_name" d = Some (VStr "o/r")
  ∧ Py.assoc "html_url" d = Some (VStr "u")
  ∧ Core.to_repository_info (VDict d)
    = Ok {| name := VStr "r"; full_name := VStr "o/r";
            description := VStr ""; stars := VInt 3;
            language := VStr "Unknown"; url := VStr "u";
            readme_content := VNone |}.
Proof.
  intros d. split; [reflexivity|]. split; [reflexivity|]. split; [reflexivity|].
  exact (proj1 (to_repository_info_defaults d (VStr "r") (VStr "o/r") (VStr "u")
                  eq_refl eq_refl eq_refl)).
Defined.

(** A key that is present with the value [None] (JSON null) is present:
    the value is carried over and the default is not used. *)
Lemma to_repository_info_null_description :
  Core.to_repository_info
    (VDict [("name", VStr "r"); ("full_name", VStr "o/r");
            ("description", VNone); ("html_url", VStr "u")])
  = Ok {| name := VStr "r"; full_name := VStr "o/r";
          description := VNone; stars := VInt 0;
          language := VStr "Unknown"; url := VStr "u";
          readme_content := VNone |}.
Proof. reflexivity. Qed.

(** Without [name] the conversion raises, and so does the search. *)
Lemma to_repository_info_missing_name :
  Core.to_repository_info (VDict [("full_name", VStr "o/r")])
  = Raise (KeyError "name").
Proof. reflexivity. Qed.

(** ** The README fetchers *)

Lemma readme_calls_app tr1 tr2 :
  readme_calls (tr1 ++ tr2) = readme_calls tr1 ++ readme_calls tr2.
Proof. unfold readme_calls. apply omap_app. Qed.

Lemma Core_get_readme_content_run host up owner repo tr :
  exists v,
    Core.get_readme_content host up owner repo tr
    = (Ok v, tr ++ [ReadmeCall owner repo;
                    HttpGet (Core.readme_request host owner repo)]).
Proof.
  unfold Core.get_readme_content. run.
  rewrite <- app_assoc. simpl.
  destruct (up _) as [e|a]; simpl; [by eauto|].
  destruct (status a =? 200); simpl; [|by eauto].
  destruct (json a) as [data|]; simpl; [|by eauto].
  destruct (Py.get data "content" _) as [content|]; simpl; [|by eauto].
  destruct (Py.get data "encoding" _) as [encoding|]; simpl; [|by eauto].
  destruct (Py.eq_str encoding "base64"); simpl; [|by eauto].
  destruct (Base64.b64decode content) as [raw|]; simpl; [|by eauto].
  destruct (Base64.decode_utf8 raw); simpl; by eauto.
Qed.

Lemma Core_get_readme_content_fails host up owner repo tr :
  Core_readme_fails (up (Core.readme_request host owner repo)) ->
  fst (Core.get_readme_content host up owner repo tr) = Ok VNone.
Proof.
  unfold Core.get_readme_content, Core_readme_fails. run.
  destruct (up _) as [e|a]; simpl; [done|].
  destruct (Z.eqb_spec (status a) 200) as [Hs|Hs]; simpl; [|done].
  intros [H|[[e H]|(data & Hj & H)]]; [done | by rewrite H |].
  rewrite Hj. simpl.
  destruct (Py.get data "content" _) as [content|]; simpl in *; [|done].
  destruct (Py.get data "encoding" _) as [encoding|]; simpl in *; [|done].
  destruct H as [-> [e H]].
  destruct (Base64.b64decode content) as [raw|]; simpl in *; [|done].
  by rewrite H.
Qed.

Lemma Direct_try_readme_file_run host up owner repo file tr :
  exists found ext,
    Direct.try_readme_file host up owner repo file tr = (Ok found, tr ++ ext)
    ∧ readme_calls ext = [].
Proof.
  unfold Direct.try_readme_file, Direct.get_download. run.
  assert (Hone : forall (found : option value) req,
            exists found' ext,
              (Ok found, tr ++ [HttpGet req]) = (Ok found', tr ++ ext)
              ∧ readme_calls ext = []).
  { intros found req. by exists found, [HttpGet req]. }
  assert (Htwo : forall (found : option value) req req',
            exists found' ext,
              (Ok found, (tr ++ [HttpGet req]) ++ [HttpGet req'])
              = (Ok found', tr ++ ext)
              ∧ readme_calls ext = []).
  { intros found req req'. exists found, [HttpGet req; HttpGet req'].
    by rewrite <- app_assoc. }
  destruct (up _) as [e|a]; simpl; [done|].
  destruct (status a =? 200); simpl; [|done].
  destruct (json a) as [data|]; simpl; [|done].
  destruct (Py.get data "download_url" _) as [u|]; simpl; [|done].
  destruct (Py.truthy u); simpl; [|done].
  destruct u as [| | |s| |]; simpl; try done.
  destruct (up _) as [e|b]; simpl; [done|].
  destruct (status b =? 200); simpl; [|done].
  destruct (text b) as [content|]; simpl; done.
Qed.

Lemma Direct_readme_loop_run host up owner repo files :
  forall tr, exists v ext,
    Direct.readme_loop host up owner repo files tr = (Ok v, tr ++ ext)
    ∧ readme_calls ext = [].
Proof.
  induction files as [|file files IH]; intros tr; simpl.
  - exists VNone, []. run. by rewrite app_nil_r.
  - destruct (Direct_try_readme_file_run host up owner repo file tr)
      as (found & ext & Hrun & Hcalls).
    unfold mbind, M_bind. rewrite Hrun.
    destruct found as [content|].
    + exists content, ext. by run.
    + destruct (IH (tr ++ ext)) as (v & ext' & Hloop & Hcalls').
      exists v, (ext ++ ext'). rewrite Hloop, app_assoc. split; [done|].
      by rewrite readme_calls_app, Hcalls, Hcalls'.
Qed.

Lemma Direct_get_readme_content_run host up owner repo tr :
  exists v ext,
    Direct.get_readme_content host up owner repo tr = (Ok v, tr ++ ext)
    ∧ readme_calls ext = [(owner, repo)].
Proof.
  unfold Direct.get_readme_content.
  destruct (Direct_readme_loop_run host up owner repo Direct.readme_files
              (tr ++ [ReadmeCall owner repo])) as (v & ext & Hrun & Hcalls).
  exists v, (ReadmeCall owner repo :: ext).
  unfold mbind, M_bind, emit. rewrite Hrun, <- app_assoc. simpl.
  split; [done|]. unfold readme_calls in *. simpl. by rewrite Hcalls.
Qed.

Lemma Direct_try_readme_file_fails host up owner repo file tr :
  contents_fails up (up (Direct.contents_request host owner repo file)) ->
  fst (Direct.try_readme_file host up owner repo file tr) = Ok None.
Proof.
  unfold Direct.try_readme_file, Direct.get_download, contents_fails. run.
  destruct (up _) as [e|a]; simpl; [done|].
  destruct (Z.eqb_spec (status a) 200) as [Hs|Hs]; simpl; [|done].
  intros [H|[[e H]|(data & Hj & H)]]; [done | by rewrite H |].
  rewrite Hj. simpl.
  destruct (Py.get data "download_url" _) as [u|]; simpl in *; [|done].
  destruct (Py.truthy u) eqn:Htruthy; simpl; [|done].
  destruct u as [| | |s| |]; simpl in *; try done.
  destruct H as [->|H]; [done|].
  unfold download_fails in H.
  destruct (up _) as [e|b]; simpl; [done|].
  destruct (Z.eqb_spec (status b) 200) as [Hb|Hb]; simpl; [|done].
  destruct H as [H|[e H]]; [done|]. by rewrite H.
Qed.

Lemma Direct_readme_loop_fails host up owner repo files :
  (forall file, In file files ->
     contents_fails up (up (Direct.contents_request host owner repo file))) ->
  forall tr, fst (Direct.readme_loop host up owner repo files tr) = Ok VNone.
Proof.
  induction files as [|file files IH]; intros Hall tr; simpl; [done|].
  pose proof (Direct_try_readme_file_fails host up owner repo file tr
                (Hall file (or_introl eq_refl))) as Hfile.
  unfold mbind, M_bind.
  destruct (Direct.try_readme_file host up owner repo file tr) as [found tr'].
  simpl in Hfile. subst found.
  apply IH. intros f Hf. apply Hall. by right.
Qed.

Lemma get_readme_content_run impl host up owner repo tr :
  exists v ext,
    get_readme_content_in impl host up owner repo tr = (Ok v, tr ++ ext)
    ∧ readme_calls ext = [(owner, repo)].
Proof.
  destruct impl; simpl.
  - destruct (Core_get_readme_content_run host up owner repo tr) as [v Hrun].
    by eauto.
  - apply Direct_get_readme_content_run.
Qed.

Lemma get_readme_content_framed impl host up owner repo :
  framed (get_readme_content_in impl host up owner repo).
Proof.
  destruct impl;
    [apply Core_get_readme_content_framed | apply Direct_get_readme_content_framed].
Qed.

Lemma search_and_get_readmes_in_unfold impl host up :
  search_and_get_readmes_in impl host up
  = search_and_get_readmes_of (search_repositories_in impl host up)
      (get_readme_content_in impl host up).
Proof. by destruct impl. Qed.

Lemma splittable_dec repo : {splittable repo} + {¬ splittable repo}.
Proof.
  unfold splittable.
  destruct (full_name repo) as [| | |s| |];
    try (right; intros (s' & H & _); discriminate H).
  destruct (Py.contains_slash s) eqn:Hc.
  - left. by exists s.
  - right. intros (s' & H & Hc'). inversion H; subst. congruence.
Qed.

(** C3. Neither fetcher raises: each returns a value, and that value is
    [None] when its endpoint fails (transport exception, non-success
    status, malformed body, content that does not decode).  In the
    batch, each record receives what its own fetch returns, run on its
    own: a failure for one record leaves the others as they are. *)
Theorem get_readme_content_never_raises impl host up :
  (forall owner repo tr,
     exists v ext,
       get_readme_content_in impl host up owner repo tr = (Ok v, tr ++ ext)
       ∧ (readme_fails_in impl host up owner repo -> v = VNone))
  ∧ (forall domain limit tr repos tr1,
       search_repositories_in impl host up domain limit tr = (Ok repos, tr1) ->
       Forall splittable repos ->
       fst (search_and_get_readmes_in impl host up domain limit tr)
       = Ok (map (enriched (get_readme_content_in impl host up)) repos)).
Proof.
  split.
  - intros owner repo tr.
    destruct (get_readme_content_run impl host up owner repo tr)
      as (v & ext & Hrun & _).
    exists v, ext. split; [done|].
    intros Hfail. destruct impl; simpl in *.
    + pose proof (Core_get_readme_content_fails host up owner repo tr Hfail) as H.
      rewrite Hrun in H. by inversion H.
    + unfold Direct.get_readme_content in Hrun.
      unfold mbind, M_bind, emit in Hrun.
      pose proof (Direct_readme_loop_fails host up owner repo Direct.readme_files
                    Hfail (tr ++ [ReadmeCall owner repo])) as H.
      rewrite Hrun in H. by inversion H.
  - intros domain limit tr repos tr1 Hsearch Hall.
    rewrite search_and_get_readmes_in_unfold.
    rewrite (enrich_ok _ _ (get_readme_content_framed impl host up)
               domain limit tr repos tr1 Hsearch Hall).
    done.
Qed.

Lemma get_readme_content_never_raises_witness :
  readme_fails_in core_searcher Samples.host Samples.down_upstream "o" "r"
  ∧ exists v ext,
      get_readme_content_in core_searcher Samples.host Samples.down_upstream
        "o" "r" [] = (Ok v, [] ++ ext)
      ∧ v = VNone.
Proof.
  assert (Hfail : readme_fails_in core_searcher Samples.host
                    Samples.down_upstream "o" "r") by exact I.
  split; [exact Hfail|].
  destruct (proj1 (get_readme_content_never_raises core_searcher Samples.host
                     Samples.down_upstream) "o" "r" [])
    as (v & ext & Hrun & Hnone).
  exists v, ext. split; [exact Hrun | exact (Hnone Hfail)].
Defined.

(** C7. With a 200 answer whose body is an object: when [encoding] is
    "base64" the result is the UTF-8 text of the base64-decoded
    [content]; when [encoding] is anything else the result is [content]
    as it is; and the body of tests/test_searcher.py gives "Hello
    World". *)
Theorem get_readme_content_decodes host up owner repo tr a d :
  up (Core.readme_request host owner repo) = Answer a ->
  status a = 200 ->
  json a = Ok (VDict d) ->
  let content := default (VStr "") (Py.assoc "content" d) in
  let result := fst (Core.get_readme_content host up owner repo tr) in
  (Py.assoc "encoding" d = Some (VStr "base64") ->
   forall raw text,
     Base64.b64decode content = Ok raw ->
     Base64.decode_utf8 raw = Ok text ->
     result = Ok text)
  ∧ (forall encoding,
       Py.assoc "encoding" d = Some encoding ->
       encoding ≠ VStr "base64" ->
       result = Ok content)
  ∧ (d = [("content", VStr "SGVsbG8gV29ybGQ="); ("encoding", VStr "base64")] ->
     result = Ok (VStr "Hello World")).
Proof.
  intros Hup Hstatus Hjson content result.
  assert (Hresult : result
          = (if Py.eq_str (default (VStr "base64") (Py.assoc "encoding" d)) "base64"
             then match (raw ← Base64.b64decode content; Base64.decode_utf8 raw) with
                  | Ok text => Ok text
                  | Raise _ => Ok VNone
                  end
             else Ok content)).
  { unfold result, content, Core.get_readme_content. run.
    rewrite Hup. simpl. rewrite Hstatus, Hjson. simpl.
    destruct (Py.assoc "content" d) as [c|], (Py.assoc "encoding" d) as [enc|];
      simpl;
      repeat match goal with
      | |- context [if ?b then _ else _] => destruct b; simpl
      | |- context [match ?x with Ok _ => _ | Raise _ => _ end] =>
          destruct x; simpl
      end; done. }
  split; [|split].
  - intros Henc raw text Hraw Htext. rewrite Hresult, Henc. simpl.
    rewrite Hraw. simpl. by rewrite Htext.
  - intros encoding Henc Hne. rewrite Hresult, Henc. simpl.
    destruct encoding as [| | |s| |]; simpl; try done.
    destruct (String.eqb_spec s "base64") as [->|]; done.
  - intros Hd. rewrite Hresult. unfold content. rewrite Hd. reflexivity.
Qed.

Lemma get_readme_content_decodes_witness :
  let a := mkResponse 200 (Ok Samples.readme_body) (Ok "") in
  Samples.test_upstream (Core.readme_request Samples.host "test-owner" "test-repo")
  = Answer a
  ∧ status a = 200
  ∧ fst (Core.get_readme_content Samples.host Samples.test_upstream
           "test-owner" "test-repo" [])
    = Ok (VStr "Hello World").
Proof.
  intros a. split; [reflexivity|]. split; [reflexivity|].
  exact (proj2 (proj2 (get_readme_content_decodes Samples.host Samples.test_upstream
           "test-owner" "test-repo" [] a
           [("content", VStr "SGVsbG8gV29ybGQ="); ("encoding", VStr "base64")]
           eq_refl eq_refl eq_refl)) eq_refl).
Defined.

(** Without an [encoding] key the default applies, and the content is
    decoded as base64. *)
Lemma get_readme_content_default_encoding host up owner repo tr a d :
  up (Core.readme_request host owner repo) = Answer a ->
  status a = 200 ->
  json a = Ok (VDict d) ->
  Py.assoc "encoding" d = None ->
  fst (Core.get_readme_content host up owner repo tr)
  = Ok (settled (raw ← Base64.b64decode (default (VStr "") (Py.assoc "content" d));
                 Base64.decode_utf8 raw)).
Proof.
  intros Hup Hstatus Hjson Henc. unfold Core.get_readme_content. run.
  rewrite Hup. simpl. rewrite Hstatus, Hjson. simpl. rewrite Henc.
  destruct (Py.assoc "content" d) as [c|]; simpl;
    repeat match goal with
    | |- context [match ?x with Ok _ => _ | Raise _ => _ end] =>
        destruct x; simpl
    end; done.
Qed.

(** ** Search-and-enrich: the claims *)

Lemma enriched_same_but_readme fetch repo :
  same_but_readme repo (enriched fetch repo).
Proof.
  unfold enriched, same_but_readme.
  destruct (owner_repo repo) as [[owner nm]|]; simpl; done.
Qed.

Lemma fetch_events_calls impl host up repos :
  Forall splittable repos ->
  Forall2 (fun repo call => owner_repo repo = Ok call) repos
    (readme_calls
       (concat (map (fetch_events (get_readme_content_in impl host up)) repos))).
Proof.
  induction 1 as [|repo repos Hs _ IH]; simpl; [constructor|].
  rewrite readme_calls_app.
  apply owner_repo_splittable in Hs as (owner & nm & Hor).
  unfold fetch_events at 1. rewrite Hor.
  destruct (get_readme_content_run impl host up owner nm [])
    as (v & ext & Hrun & Hcalls).
  rewrite Hrun. simpl. rewrite Hcalls. simpl.
  by constructor.
Qed.

(** C4, as the code has it. When every record that the search returns
    has a string [full_name] with a slash in it, [search_and_get_readmes]
    returns as many records, in the same order, each differing from the
    record of the search in [readme_content] at most, and
    [get_readme_content] is entered exactly once for each record, in
    order, with the owner and name of that record. *)
Theorem search_and_get_readmes_preserves impl host up domain limit tr repos tr1 :
  search_repositories_in impl host up domain limit tr = (Ok repos, tr1) ->
  Forall splittable repos ->
  exists out ext,
    search_and_get_readmes_in impl host up domain limit tr = (Ok out, tr1 ++ ext)
    ∧ length out = length repos
    ∧ Forall2 same_but_readme repos out
    ∧ Forall2 (fun repo call => owner_repo repo = Ok call) repos (readme_calls ext).
Proof.
  intros Hsearch Hall.
  exists (map (enriched (get_readme_content_in impl host up)) repos),
         (concat (map (fetch_events (get_readme_content_in impl host up)) repos)).
  split.
  { rewrite search_and_get_readmes_in_unfold.
    by apply enrich_ok; [apply get_readme_content_framed| |]. }
  split; [by rewrite length_map|]. split.
  - clear. induction repos as [|repo repos IH]; simpl; constructor; [|done].
    apply enriched_same_but_readme.
  - by apply fetch_events_calls.
Qed.

Lemma search_and_get_readmes_preserves_witness :
  let repos := [Samples.record "test-repo" "test-owner/test-repo" 100 VNone] in
  search_repositories_in core_searcher Samples.host Samples.test_upstream
    "test" 1 []
  = (Ok repos, [HttpGet (page_request Samples.host "test" 1 1)])
  ∧ Forall splittable repos
  ∧ exists out ext,
      search_and_get_readmes_in core_searcher Samples.host Samples.test_upstream
        "test" 1 []
      = (Ok out, [HttpGet (page_request Samples.host "test" 1 1)] ++ ext)
      ∧ length out = length repos.
Proof.
  intros repos.
  assert (Hall : Forall splittable repos).
  { constructor; [|constructor]. exists "test-owner/test-repo". by split. }
  split; [reflexivity|]. split; [exact Hall|].
  destruct (search_and_get_readmes_preserves core_searcher Samples.host
              Samples.test_upstream "test" 1 [] repos
              [HttpGet (page_request Samples.host "test" 1 1)] eq_refl Hall)
    as (out & ext & Hrun & Hlen & _).
  exists out, ext. split; [exact Hrun | exact Hlen].
Defined.

(** C4 as stated fails: the search returns one record, and
    [search_and_get_readmes] returns none; it raises before any README
    is fetched. *)
Lemma search_and_get_readmes_loses_records :
  Core.search_repositories Samples.host Samples.odd_upstream "test" 1 []
  = (Ok [Samples.record "x" "noslash" (-1) VNone],
     [HttpGet (page_request Samples.host "test" 1 1)])
  ∧ Core.search_and_get_readmes Samples.host Samples.odd_upstream "test" 1 []
    = (Raise ValueError, [HttpGet (page_request Samples.host "test" 1 1)]).
Proof. split; reflexivity. Qed.

(** C10. The unpacking of [full_name] is outside every [try]: when some
    record of the search has a full name without a slash, the call
    raises ([ValueError] from the unpacking, or [AttributeError] from an
    earlier record whose full name is no string), the trace is the one
    the search left, so no README was fetched, and no record is
    returned.  The call returns exactly when every full name is a string
    with a slash. *)
Theorem search_and_get_readmes_aborts impl host up domain limit tr repos tr1 :
  search_repositories_in impl host up domain limit tr = (Ok repos, tr1) ->
  (Exists (fun repo => exists s, full_name repo = VStr s
                                 ∧ Py.contains_slash s = false) repos ->
   exists e,
     search_and_get_readmes_in impl host up domain limit tr = (Raise e, tr1)
     ∧ (e = ValueError ∨ e = AttributeError))
  ∧ (Forall splittable repos
     <-> exists out tr2,
           search_and_get_readmes_in impl host up domain limit tr = (Ok out, tr2)).
Proof.
  intros Hsearch.
  rewrite search_and_get_readmes_in_unfold.
  split; [|split].
  - intros Hex. eapply enrich_abort; [exact Hsearch|].
    eapply Exists_impl; [exact Hex|].
    intros repo (s & Hs & Hc) (s' & Hs' & Hc'). rewrite Hs in Hs'.
    inversion Hs'; subst. congruence.
  - intros Hall. do 2 eexists.
    by apply enrich_ok; [apply get_readme_content_framed| |].
  - intros (out & tr2 & Hrun).
    destruct (Forall_Exists_dec splittable (fun repo => ¬ splittable repo)
                splittable_dec repos) as [|Hex];
      [done|].
    destruct (enrich_abort _ (get_readme_content_in impl host up)
                domain limit tr repos tr1 Hsearch Hex) as (e & Habort & _).
    rewrite Habort in Hrun. discriminate Hrun.
Qed.

Lemma search_and_get_readmes_aborts_witness :
  search_repositories_in core_searcher Samples.host Samples.odd_upstream
    "test" 1 []
  = (Ok [Samples.record "x" "noslash" (-1) VNone],
     [HttpGet (page_request Samples.host "test" 1 1)])
  ∧ exists e,
      search_and_get_readmes_in core_searcher Samples.host Samples.odd_upstream
        "test" 1 []
      = (Raise e, [HttpGet (page_request Samples.host "test" 1 1)])
      ∧ (e = ValueError ∨ e = AttributeError).
Proof.
  split; [reflexivity|].
  apply (proj1 (search_and_get_readmes_aborts core_searcher Samples.host
                  Samples.odd_upstream "test" 1 []
                  [Samples.record "x" "noslash" (-1) VNone]
                  [HttpGet (page_request Samples.host "test" 1 1)] eq_refl)).
  constructor. exists "noslash". split; reflexivity.
Defined.

(** ** The usage counters *)

Lemma search_and_count_stats token host up with_readme domain limit st tr :
  fst (snd (Routes.search_and_count token host up with_readme domain limit (st, tr)))
  = match searcher_outcome token host up with_readme domain limit tr with
    | Ok repositories => Routes.update_statistics domain repositories st
    | Raise _ => st
    end.
Proof.
  unfold Routes.search_and_count, searcher_outcome.
  match goal with
  | |- context [match ?x with (_, _) => _ end] =>
      destruct x as [[repositories|e] tr']
  end; reflexivity.
Qed.

Lemma serve_world token host up validate r with_readme domain limit w :
  route_search r = Some (with_readme, domain, limit) ->
  Routes.limit_ok limit = true ->
  snd (Routes.serve token host up validate r w)
  = snd (Routes.search_and_count token host up with_readme domain limit w).
Proof.
  intros Hr Hok.
  destruct r; cbn [route_search] in Hr; inversion Hr; subst;
    cbn [Routes.serve]; rewrite Hok;
    unfold Routes.search_repositories, Routes.search_repositories_query,
      Routes.search_repositories_simple, Routes.search_repositories_no_readme;
    destruct (Routes.search_and_count _ _ _ _ _ _ _) as [[repositories|e] w'];
    cbn [snd]; try reflexivity.
  destruct (res_map validate repositories); reflexivity.
Qed.

Lemma update_statistics_fields domain repositories st :
  Routes.total_searches (Routes.update_statistics domain repositories st)
  = Routes.total_searches st + 1
  ∧ Routes.total_repositories_found (Routes.update_statistics domain repositories st)
    = Routes.total_repositories_found st + Z.of_nat (length repositories)
  ∧ Routes.searched_domains (Routes.update_statistics domain repositories st)
      !! domain
    = Some (default 0 (Routes.searched_domains st !! domain) + 1)
  ∧ (forall other, other ≠ domain ->
       Routes.searched_domains (Routes.update_statistics domain repositories st)
         !! other
       = Routes.searched_domains st !! other).
Proof.
  unfold Routes.update_statistics. simpl. repeat split.
  - apply lookup_insert_eq.
  - intros other Hne. by apply lookup_insert_ne.
Qed.

(** C9, as the code has it. The counters start at zero with an empty
    domain map. A request to one of the four search routes whose limit
    passes validation and whose search returns adds one to the searches,
    the number of returned records to the repositories and one to the
    count of the domain, and leaves the other domains alone. A search
    request whose search raises, or whose limit is rejected, leaves the
    counters as they were, and so does every other request. *)
Theorem usage_statistics_updates token host up validate r st tr :
  Routes.total_searches Routes._search_stats = 0
  ∧ Routes.total_repositories_found Routes._search_stats = 0
  ∧ Routes.searched_domains Routes._search_stats = ∅
  ∧ (forall with_readme domain limit,
       route_search r = Some (with_readme, domain, limit) ->
       Routes.limit_ok limit = true ->
       match searcher_outcome token host up with_readme domain limit tr with
       | Ok repositories =>
           stats_after token host up validate r st tr
           = Routes.update_statistics domain repositories st
           ∧ Routes.total_searches (stats_after token host up validate r st tr)
             = Routes.total_searches st + 1
           ∧ Routes.total_repositories_found
               (stats_after token host up validate r st tr)
             = Routes.total_repositories_found st + Z.of_nat (length repositories)
           ∧ Routes.searched_domains (stats_after token host up validate r st tr)
               !! domain
             = Some (default 0 (Routes.searched_domains st !! domain) + 1)
           ∧ (forall other, other ≠ domain ->
                Routes.searched_domains (stats_after token host up validate r st tr)
                  !! other
                = Routes.searched_domains st !! other)
       | Raise _ => stats_after token host up validate r st tr = st
       end)
  ∧ (forall with_readme domain limit,
       route_search r = Some (with_readme, domain, limit) ->
       Routes.limit_ok limit = false ->
       stats_after token host up validate r st tr = st)
  ∧ (route_search r = None -> stats_after token host up validate r st tr = st).
Proof.
  split; [done|]. split; [done|]. split; [done|].
  assert (Hserve : forall with_readme domain limit,
            route_search r = Some (with_readme, domain, limit) ->
            Routes.limit_ok limit = true ->
            stats_after token host up validate r st tr
            = match searcher_outcome token host up with_readme domain limit tr with
              | Ok repositories => Routes.update_statistics domain repositories st
              | Raise _ => st
              end).
  { intros with_readme domain limit Hr Hok. unfold stats_after.
    rewrite (serve_world _ _ _ _ _ _ _ _ _ Hr Hok).
    apply search_and_count_stats. }
  split; [|split].
  - intros with_readme domain limit Hr Hok.
    rewrite (Hserve with_readme domain limit Hr Hok).
    destruct (searcher_outcome _ _ _ _ _ _ _) as [repositories|e]; [|done].
    split; [done|]. apply update_statistics_fields.
  - intros with_readme domain limit Hr Hbad. unfold stats_after.
    destruct r; simpl in Hr; inversion Hr; subst; simpl; by rewrite Hbad.
  - intros Hr. unfold stats_after.
    destruct r; simpl in Hr; try done; simpl.
    unfold Routes.health_check.
    destruct (Routes.token_configured token); [|done].
    match goal with
    | |- context [match ?x with (_, _) => _ end] =>
        destruct x as [[repos|e] tr']
    end; done.
Qed.

Lemma usage_statistics_updates_witness :
  route_search (Routes.GetSearch "test" 1) = Some (true, "test", 1)
  ∧ Routes.limit_ok 1 = true
  ∧ Routes.total_searches
      (stats_after (Some "token") Samples.host Samples.test_upstream
         (fun _ => Ok ()) (Routes.GetSearch "test" 1) Routes._search_stats [])
    = Routes.total_searches Routes._search_stats + 1.
Proof.
  split; [reflexivity|]. split; [reflexivity|].
  exact (proj1 (proj2
    (proj1 (proj2 (proj2 (proj2
       (usage_statistics_updates (Some "token") Samples.host
          Samples.test_upstream (fun _ => Ok ()) (Routes.GetSearch "test" 1)
          Routes._search_stats []))))
       true "test" 1 eq_refl eq_refl))).
Defined.

(** C9 as stated fails: with no token configured a search request is
    answered with a server error and the counters stay at zero. *)
Lemma search_request_not_counted :
  Routes.serve None Samples.host Samples.test_upstream (fun _ => Ok ())
    (Routes.PostSearch "test" 1) (Routes._search_stats, [])
  = (Routes.ServerError ValueError, (Routes._search_stats, []))
  ∧ Routes.total_searches
      (stats_after None Samples.host Samples.test_upstream (fun _ => Ok ())
         (Routes.PostSearch "test" 1) Routes._search_stats [])
    ≠ Routes.total_searches Routes._search_stats + 1.
Proof. split; [reflexivity|]. vm_compute. discriminate. Qed.

(** A search whose records cannot be unpacked is not counted either. *)
Lemma search_request_aborted_not_counted :
  Routes.serve (Some "token") Samples.host Samples.odd_upstream (fun _ => Ok ())
    (Routes.GetSearchDomain "test" 1) (Routes._search_stats, [])
  = (Routes.ServerError ValueError,
     (Routes._search_stats, [HttpGet (page_request Samples.host "test" 1 1)])).
Proof. reflexivity. Qed.

(** * Further properties *)

(** ** How many pages a search requests *)

Section PageBudget.
Context (host : string) (up : request -> http_result)
        (domain : string) (limit : Z).

Local Abbreviation acc_ := (accumulated host up domain limit).
Local Abbreviation resp_ := (page_response host up domain limit).
Local Abbreviation stops_ := (stops_after host up domain limit).

Lemma stops_after_full_pages (j : nat) :
  ¬ stops_ (S j) ->
  per_page_of limit <= Z.of_nat (length (page_items (resp_ (S j)))).
Proof.
  intros Hn. destruct (Z.le_gt_cases (per_page_of limit)
    (Z.of_nat (length (page_items (resp_ (S j)))))) as [|Hlt]; [done|].
  destruct Hn. right; right. split; [lia | lia].
Qed.

Lemma first_stop_bounds (k : nat) :
  stops_ k -> (forall j, (j < k)%nat -> ¬ stops_ j) ->
  (k <= 3)%nat
  ∧ (limit <= 0 -> k = 0%nat)
  ∧ (limit <= 50 -> (k <= 1)%nat)
  ∧ (limit <= 100 -> (k <= 2)%nat).
Proof.
  intros Hstop Hmin.
  assert (H3 : (k <= 3)%nat).
  { destruct (Nat.le_gt_cases k 3) as [|Hgt]; [done|].
    destruct (Hmin 3%nat Hgt). by left. }
  split; [done|]. split; [|split].
  - intros Hl. destruct k as [|k]; [done|].
    destruct (Hmin 0%nat); [lia|]. right; left. simpl. lia.
  - intros Hl. destruct (Nat.le_gt_cases k 1) as [|Hgt]; [done|].
    pose proof (Hmin 1%nat Hgt) as Hn1.
    pose proof (stops_after_full_pages 0 Hn1) as Hfull.
    destruct Hn1. right; left.
    rewrite (accumulated_S host up domain limit 0), length_app.
    unfold per_page_of in Hfull. lia.
  - intros Hl. destruct (Nat.le_gt_cases k 2) as [|Hgt]; [done|].
    assert (Hn1 : ¬ stops_ 1) by (apply Hmin; lia).
    pose proof (Hmin 2%nat Hgt) as Hn2.
    pose proof (stops_after_full_pages 0 Hn1) as Hfull1.
    pose proof (stops_after_full_pages 1 Hn2) as Hfull2.
    destruct Hn2. right; left.
    rewrite (accumulated_S host up domain limit 1),
            (accumulated_S host up domain limit 0), !length_app.
    unfold per_page_of in Hfull1, Hfull2. lia.
Qed.

End PageBudget.

(** X1. With a limit of zero or less the loop condition fails at once: no
    request goes out and the result is the empty list. *)
Theorem search_repositories_no_limit impl host up domain limit tr :
  limit <= 0 ->
  search_repositories_in impl host up domain limit tr = (Ok [], tr).
Proof.
  intros Hl.
  destruct (search_pages_run host up domain limit tr) as (k & Hrun & Hstop & Hmin).
  destruct (first_stop_bounds host up domain limit k Hstop Hmin)
    as (_ & H0 & _).
  rewrite (H0 Hl) in Hrun. simpl in Hrun. rewrite app_nil_r in Hrun.
  rewrite (search_repositories_run impl _ _ _ _ _ _ _ Hrun).
  assert (Hslice : forall A : Type, Py.slice_to (@nil A) limit = []).
  { intros A. unfold Py.slice_to. destruct (0 <=? limit); apply take_nil. }
  destruct impl; simpl; by rewrite Hslice.
Qed.

Lemma search_repositories_no_limit_witness :
  -3 <= 0
  ∧ search_repositories_in direct_searcher Samples.host Samples.test_upstream
      "test" (-3) [] = (Ok [], []).
Proof.
  split; [lia|].
  apply (search_repositories_no_limit direct_searcher Samples.host
           Samples.test_upstream "test" (-3) []). lia.
Defined.

(** X2. The search requests pages 1 to k with k at most 3; with a limit of
    at most 100 it requests at most two pages, and with a limit of at
    most 50 at most one: a full page already holds [limit * 2] items. *)
Theorem search_repositories_page_budget impl host up domain limit tr :
  exists k : nat,
    snd (search_repositories_in impl host up domain limit tr)
    = tr ++ map (fun p => HttpGet (page_request host domain limit p)) (seq 1 k)
    ∧ (k <= 3)%nat
    ∧ (limit <= 100 -> (k <= 2)%nat)
    ∧ (limit <= 50 -> (k <= 1)%nat).
Proof.
  destruct (search_pages_run host up domain limit tr) as (k & Hrun & Hstop & Hmin).
  destruct (first_stop_bounds host up domain limit k Hstop Hmin)
    as (H3 & _ & H1 & H2).
  exists k. split; [|done].
  by rewrite (search_repositories_run impl _ _ _ _ _ _ _ Hrun).
Qed.

(** ** How many records a search returns *)

Lemma res_map_length {A B} (f : A -> res B) l ys :
  res_map f l = Ok ys -> length ys = length l.
Proof. intros H. apply res_map_Ok, Forall2_length in H. done. Qed.

Lemma slice_to_length_min {A} (l : list A) n :
  0 <= n -> Z.of_nat (length (Py.slice_to l n)) = Z.min n (Z.of_nat (length l)).
Proof.
  intros Hn. unfold Py.slice_to.
  destruct (Z.leb_spec 0 n); [|lia]. rewrite length_take. lia.
Qed.

(** X3. When the search returns, it returns [limit] records, or all the
    accumulated items if these are fewer. *)
Theorem search_repositories_count impl host up domain limit tr repos tr' all_repos :
  0 <= limit ->
  fst (search_pages host up domain limit tr) = Ok all_repos ->
  search_repositories_in impl host up domain limit tr = (Ok repos, tr') ->
  Z.of_nat (length repos) = Z.min limit (Z.of_nat (length all_repos)).
Proof.
  intros Hl Hpages Hsearch.
  destruct (search_pages host up domain limit tr) as [r tr0] eqn:Hrun.
  simpl in Hpages. subst r.
  rewrite (search_repositories_run impl _ _ _ _ _ _ _ Hrun) in Hsearch.
  injection Hsearch as Hfin _.
  destruct impl; simpl in Hfin.
  - apply res_map_length in Hfin. rewrite Hfin. by apply slice_to_length_min.
  - destruct (res_map Direct.to_repository_info all_repos) as [rs|] eqn:Hrs;
      simpl in Hfin; [|done].
    destruct (Direct.sort_by_stars rs) as [s|] eqn:Hs; simpl in Hfin; [|done].
    injection Hfin as <-.
    rewrite slice_to_length_min by done.
    apply sort_by_stars_spec in Hs as [Hperm _].
    rewrite (Permutation_length Hperm).
    by rewrite (res_map_length _ _ _ Hrs).
Qed.

Lemma search_repositories_count_witness :
  0 <= 1
  ∧ Z.of_nat (length [Samples.record "b" "o/b" 5 VNone]) = Z.min 1 (Z.of_nat 2).
Proof.
  split; [lia|].
  apply (search_repositories_count direct_searcher Samples.host
           Samples.unsorted_upstream "test" 1 []
           [Samples.record "b" "o/b" 5 VNone]
           [HttpGet (page_request Samples.host "test" 1 1)]
           [Samples.raw_item "a" "o/a" 1; Samples.raw_item "b" "o/b" 5]);
    [lia | reflexivity | reflexivity].
Defined.

(** ** The local sort and the two implementations *)

Lemma Direct_search_repositories_inv host up domain limit tr repos tr' :
  Direct.search_repositories host up domain limit tr = (Ok repos, tr') ->
  exists all_repos converted sorted,
    search_pages host up domain limit tr = (Ok all_repos, tr')
    ∧ res_map Direct.to_repository_info all_repos = Ok converted
    ∧ Direct.sort_by_stars converted = Ok sorted
    ∧ repos = Py.slice_to sorted limit.
Proof.
  destruct (search_pages_run host up domain limit tr) as (k & Hrun & _).
  pose proof (search_repositories_run direct_searcher _ _ _ _ _ _ _ Hrun) as Hr.
  simpl in Hr. rewrite Hr. intros H. injection H as Hfin <-.
  destruct (res_map _ _) as [converted|] eqn:Hc; simpl in Hfin; [|done].
  destruct (Direct.sort_by_stars converted) as [sorted|] eqn:Hs;
    simpl in Hfin; [|done].
  injection Hfin as <-. by eauto 10.
Qed.

Lemma slice_to_take_drop {A} (l : list A) n :
  exists m, Py.slice_to l n = take m l.
Proof. unfold Py.slice_to. destruct (0 <=? n); by eauto. Qed.

(** X4. When the accumulated items are well-formed repository objects
    (with integer star counts), the search of github_api_searcher.py
    returns, and what it returns is in descending order of star count
    and is the top of the list: together with the records it leaves out
    it makes up the records of all the items, and no record left out has
    more stars than a record returned. *)
Theorem Direct_search_repositories_top host up domain limit tr all_repos tr' :
  search_pages host up domain limit tr = (Ok all_repos, tr') ->
  Forall well_formed_item all_repos ->
  exists repos left_out,
    Direct.search_repositories host up domain limit tr = (Ok repos, tr')
    ∧ Permutation (repos ++ left_out) (map record_of_item all_repos)
    ∧ StronglySorted stars_ge repos
    ∧ (forall r r', r ∈ repos -> r' ∈ left_out -> stars_ge r r').
Proof.
  intros Hpages Hwf.
  pose proof (search_repositories_run direct_searcher _ _ _ _ _ _ _ Hpages) as Hs.
  destruct (finish_direct_well_formed limit all_repos Hwf)
    as (sorted & Hfin & Hperm & Hsorted).
  rewrite Hfin in Hs. simpl in Hs.
  destruct (slice_to_take_drop sorted limit) as [m Hm]. rewrite Hm in Hs.
  destruct (top_of_sorted sorted m Hsorted) as [Htop Hcross].
  exists (take m sorted), (drop m sorted).
  split; [done|]. rewrite take_drop. done.
Qed.

Lemma Direct_search_repositories_top_witness :
  let all_repos := [Samples.raw_item "a" "o/a" 1; Samples.raw_item "b" "o/b" 5] in
  search_pages Samples.host Samples.unsorted_upstream "test" 1 []
  = (Ok all_repos, [HttpGet (page_request Samples.host "test" 1 1)])
  ∧ Forall well_formed_item all_repos
  ∧ exists repos left_out,
      Direct.search_repositories Samples.host Samples.unsorted_upstream "test" 1 []
      = (Ok repos, [HttpGet (page_request Samples.host "test" 1 1)])
      ∧ Permutation (repos ++ left_out) (map record_of_item all_repos)
      ∧ StronglySorted stars_ge repos
      ∧ (forall r r', r ∈ repos -> r' ∈ left_out -> stars_ge r r').
Proof.
  intros all_repos.
  assert (Hwf : Forall well_formed_item all_repos).
  { repeat constructor; eexists _, _; (split; [reflexivity|]);
      repeat split; by eauto. }
  split; [reflexivity|]. split; [exact Hwf|].
  exact (Direct_search_repositories_top Samples.host Samples.unsorted_upstream
           "test" 1 [] all_repos _ eq_refl Hwf).
Defined.

Lemma lt_true_keys_differ a b :
  Py.lt a b = Ok true -> Py.as_int a = Py.as_int b -> Py.as_int a = None.
Proof.
  unfold Py.lt.
  destruct (Py.as_int a) as [x|], (Py.as_int b) as [y|]; try done.
  intros H Heq. injection H as H. injection Heq as ->. lia.
Qed.

Lemma insert_by_stars_filter x l k :
  forall l', Direct.insert_by_stars x l = Ok l' ->
    filter (fun r => star_key r = Some k) l'
    = filter (fun r => star_key r = Some k) (x :: l).
Proof.
  induction l as [|y l IH]; intros l' H; simpl in H.
  - by injection H as <-.
  - destruct (Py.lt (stars x) (stars y)) as [[|]|] eqn:Hlt; simpl in H; [| |done].
    + destruct (Direct.insert_by_stars x l) as [r|]; simpl in H; [|done].
      injection H as <-.
      rewrite (filter_cons _ y r), (IH r eq_refl), !filter_cons.
      unfold star_key.
      destruct (decide (Py.as_int (stars x) = Some k)) as [Hx|Hx],
               (decide (Py.as_int (stars y) = Some k)) as [Hy|Hy]; try done.
      pose proof (lt_true_keys_differ _ _ Hlt) as Hd.
      rewrite Hx, Hy in Hd. by specialize (Hd eq_refl).
    + by injection H as <-.
Qed.

Lemma sort_by_stars_filter l k :
  forall l', Direct.sort_by_stars l = Ok l' ->
    filter (fun r => star_key r = Some k) l'
    = filter (fun r => star_key r = Some k) l.
Proof.
  induction l as [|x l IH]; intros l' H; simpl in H.
  - by injection H as <-.
  - destruct (Direct.sort_by_stars l) as [s|]; simpl in H; [|done].
    rewrite (insert_by_stars_filter x s k l' H), !filter_cons.
    by rewrite (IH s eq_refl).
Qed.

(** X5. Ties keep their arrival order: among the records that
    github_api_searcher.py returns, those with a given star count stand
    in the order in which their items arrived. *)
Theorem Direct_search_repositories_stable host up domain limit tr repos tr' k :
  Direct.search_repositories host up domain limit tr = (Ok repos, tr') ->
  exists all_repos converted,
    fst (search_pages host up domain limit tr) = Ok all_repos
    ∧ res_map Direct.to_repository_info all_repos = Ok converted
    ∧ filter (fun r => star_key r = Some k) repos
      `prefix_of` filter (fun r => star_key r = Some k) converted.
Proof.
  intros Hsearch.
  destruct (Direct_search_repositories_inv _ _ _ _ _ _ _ Hsearch)
    as (all_repos & converted & sorted & Hpages & Hconv & Hsort & ->).
  destruct (slice_to_take_drop sorted limit) as [m ->].
  exists all_repos, converted. rewrite Hpages.
  split; [done|]. split; [done|].
  rewrite <- (sort_by_stars_filter converted k sorted Hsort).
  rewrite <- (take_drop m sorted) at 2. rewrite filter_app.
  by apply prefix_app_r.
Qed.

Lemma Direct_search_repositories_stable_witness :
  Direct.search_repositories Samples.host Samples.failing_upstream "test" 60 []
  = (Ok (replicate 60 (Samples.record "a" "o/a" 9 VNone)),
     map (fun q => HttpGet (page_request Samples.host "test" 60 q)) (seq 1 2))
  ∧ exists all_repos converted,
      fst (search_pages Samples.host Samples.failing_upstream "test" 60 [])
      = Ok all_repos
      ∧ res_map Direct.to_repository_info all_repos = Ok converted
      ∧ filter (fun r => star_key r = Some 9)
          (replicate 60 (Samples.record "a" "o/a" 9 VNone))
        `prefix_of` filter (fun r => star_key r = Some 9) converted.
Proof.
  assert (Hrun : Direct.search_repositories Samples.host Samples.failing_upstream
                   "test" 60 []
                 = (Ok (replicate 60 (Samples.record "a" "o/a" 9 VNone)),
                    map (fun q => HttpGet (page_request Samples.host "test" 60 q))
                      (seq 1 2))) by (vm_compute; reflexivity).
  split; [exact Hrun|].
  exact (Direct_search_repositories_stable Samples.host Samples.failing_upstream
           "test" 60 [] _ _ 9 Hrun).
Defined.

Lemma sort_by_stars_sorted_id l :
  Sorted not_below l -> Direct.sort_by_stars l = Ok l.
Proof.
  induction 1 as [|x l Hs IH Hhd]; simpl; [done|].
  rewrite IH. simpl. destruct Hhd as [|y l' Hxy]; simpl; [done|].
  unfold not_below in Hxy. by rewrite Hxy.
Qed.

Lemma Direct_to_repository_info_Core item repo :
  Direct.to_repository_info item = Ok repo ->
  Core.to_repository_info item = Ok repo
  ∧ Py.getitem item "stargazers_count" = Ok (stars repo).
Proof.
  unfold Direct.to_repository_info, Core.to_repository_info.
  destruct item as [| | | | |d]; simpl; try done.
  destruct (Py.assoc "name" d); simpl; [|done].
  destruct (Py.assoc "full_name" d); simpl; [|done].
  destruct (Py.assoc "description" d); simpl;
    destruct (Py.assoc "stargazers_count" d); simpl; try done;
    destruct (Py.assoc "language" d); simpl;
    destruct (Py.assoc "html_url" d); simpl; try done;
    intros H; injection H as <-; done.
Qed.

Lemma res_map_take {A B} (f : A -> res B) l ys n :
  res_map f l = Ok ys -> res_map f (take n l) = Ok (take n ys).
Proof.
  revert ys n. induction l as [|x l IH]; intros ys n H; simpl in H.
  - injection H as <-. by rewrite !take_nil.
  - destruct (f x) as [y|] eqn:Hx; simpl in H; [|done].
    destruct (res_map f l) as [ys'|] eqn:Hl; simpl in H; [|done].
    injection H as <-. destruct n as [|n]; simpl; [done|].
    rewrite Hx. simpl. by rewrite (IH ys' n eq_refl).
Qed.

(** X6. On an upstream that delivers its items in descending order of star
    count the local sort changes nothing: whenever
    github_api_searcher.py returns, app/core/searcher.py returns the
    same records after the same requests. *)
Theorem search_repositories_agree_on_sorted host up domain limit tr repos tr' all_repos :
  fst (search_pages host up domain limit tr) = Ok all_repos ->
  Sorted item_not_below all_repos ->
  Direct.search_repositories host up domain limit tr = (Ok repos, tr') ->
  Core.search_repositories host up domain limit tr = (Ok repos, tr').
Proof.
  intros Hall Hsorted Hsearch.
  destruct (Direct_search_repositories_inv _ _ _ _ _ _ _ Hsearch)
    as (all_repos' & converted & sorted & Hpages & Hconv & Hsort & ->).
  rewrite Hpages in Hall. simpl in Hall. injection Hall as ->.
  pose proof (res_map_Ok _ _ _ Hconv) as Hf2.
  assert (Hcs : Sorted not_below converted).
  { clear -Hf2 Hsorted. induction Hf2 as [|item r l rs Hto Hrest IH];
      [constructor|].
    inversion Hsorted as [|? ? Hs Hhd]; subst.
    constructor; [by apply IH|].
    destruct Hrest as [|item' r' l' rs' Hto' _]; [constructor|].
    inversion Hhd as [|? ? (x & y & Hx & Hy & Hlt)]; subst. constructor.
    apply Direct_to_repository_info_Core in Hto as [_ Hsx].
    apply Direct_to_repository_info_Core in Hto' as [_ Hsy].
    rewrite Hx in Hsx. rewrite Hy in Hsy.
    injection Hsx as ->. injection Hsy as ->. done. }
  rewrite (sort_by_stars_sorted_id converted Hcs) in Hsort.
  injection Hsort as <-.
  pose proof (search_repositories_run core_searcher _ _ _ _ _ _ _ Hpages) as Hr.
  simpl in Hr. rewrite Hr. f_equal.
  assert (Hcore : res_map Core.to_repository_info all_repos = Ok converted).
  { clear -Hf2. induction Hf2 as [|item r l rs Hto _ IH]; simpl; [done|].
    apply Direct_to_repository_info_Core in Hto as [-> _]. simpl.
    by rewrite IH. }
  unfold Py.slice_to. rewrite (res_map_length _ _ _ Hconv).
  destruct (0 <=? limit); by apply res_map_take.
Qed.

Lemma search_repositories_agree_on_sorted_witness :
  let all_repos := [Samples.raw_item "b" "o/b" 5; Samples.raw_item "a" "o/a" 1] in
  fst (search_pages Samples.host Fixtures.sorted_upstream "test" 2 []) = Ok all_repos
  ∧ Sorted item_not_below all_repos
  ∧ Direct.search_repositories Samples.host Fixtures.sorted_upstream "test" 2 []
    = (Ok [Samples.record "b" "o/b" 5 VNone; Samples.record "a" "o/a" 1 VNone],
       [HttpGet (page_request Samples.host "test" 2 1)])
  ∧ Core.search_repositories Samples.host Fixtures.sorted_upstream "test" 2 []
    = (Ok [Samples.record "b" "o/b" 5 VNone; Samples.record "a" "o/a" 1 VNone],
       [HttpGet (page_request Samples.host "test" 2 1)]).
Proof.
  intros all_repos.
  assert (Hs : Sorted item_not_below all_repos).
  { repeat constructor. exists (VInt 5), (VInt 1). by repeat split. }
  split; [reflexivity|]. split; [exact Hs|]. split; [reflexivity|].
  exact (search_repositories_agree_on_sorted Samples.host Fixtures.sorted_upstream
           "test" 2 [] _ _ all_repos eq_refl Hs eq_refl).
Defined.

(** ** Owner, name and the README address *)

Lemma str_app_cons c a b : String c a +:+ b = String c (a +:+ b).
Proof. reflexivity. Qed.

Lemma str_app_assoc a b c : (a +:+ b) +:+ c = a +:+ b +:+ c.
Proof.
  induction a as [|x a IH]; [done|].
  by rewrite !str_app_cons, IH.
Qed.

Lemma split_slash_join s a b :
  Py.split_slash s = [a; b] ->
  s = a +:+ "/" +:+ b ∧ Py.contains_slash a = false.
Proof.
  revert a b. induction s as [|c s IH]; intros a b H; simpl in H; [done|].
  destruct (Ascii.eqb_spec c "/") as [->|Hc].
  - injection H as <- <-. done.
  - destruct (Py.split_slash s) as [|p [|q [|r l]]] eqn:Hs; try done.
    injection H as <- <-.
    destruct (IH p q eq_refl) as [-> Hp]. split; [done|].
    simpl. rewrite Hp. by destruct (Ascii.eqb_spec c "/").
Qed.

(** X8. The unpacking splits at the first slash and loses nothing: owner
    and name put together again are the full name, the owner has no
    slash in it, and so the README of a record is requested at
    host/repos/full_name/readme. *)
Theorem owner_repo_round_trip host repo owner repo_name :
  owner_repo repo = Ok (owner, repo_name) ->
  full_name repo = VStr (owner +:+ "/" +:+ repo_name)
  ∧ Py.contains_slash owner = false
  ∧ (forall s, full_name repo = VStr s ->
       req_url (Core.readme_request host owner repo_name)
       = host +:+ "/repos/" +:+ s +:+ "/readme").
Proof.
  unfold owner_repo.
  destruct (full_name repo) as [| | |s| |]; simpl; try done.
  destruct (Py.split_slash s) as [|a [|b [|c l]]] eqn:Hs; simpl; try done.
  intros H. injection H as <- <-.
  destruct (split_slash_join s a b Hs) as [-> Ha].
  split; [done|]. split; [done|].
  intros s' Hs'. injection Hs' as <-. simpl.
  by rewrite !str_app_assoc.
Qed.

Lemma owner_repo_round_trip_witness :
  owner_repo (Samples.record "test-repo" "test-owner/test-repo" 100 VNone)
  = Ok ("test-owner", "test-repo")
  ∧ Py.contains_slash "test-owner" = false.
Proof.
  split; [reflexivity|].
  exact (proj1 (proj2 (owner_repo_round_trip Samples.host
           (Samples.record "test-repo" "test-owner/test-repo" 100 VNone)
           "test-owner" "test-repo" eq_refl))).
Defined.

(** ** The candidates of github_api_searcher.py *)

Lemma http_requests_app tr1 tr2 :
  http_requests (tr1 ++ tr2) = http_requests tr1 ++ http_requests tr2.
Proof. unfold http_requests. apply omap_app. Qed.

Lemma Direct_try_readme_file_resolves host up owner repo file content tr :
  resolves host up owner repo file content ->
  fst (Direct.try_readme_file host up owner repo file tr) = Ok (Some (VStr content)).
Proof.
  intros (a & d & u & b & Ha & Hsa & Hja & Hd & Hu & Hb & Hsb & Htb).
  unfold Direct.try_readme_file, Direct.get_download. run.
  rewrite Ha. simpl. rewrite Hsa, Hja. simpl. rewrite Hd. simpl.
  destruct (String.eqb_spec u "") as [|_]; [done|]. simpl.
  rewrite Hb. simpl. rewrite Hsb, Htb. done.
Qed.

Lemma Direct_readme_loop_first host up owner repo pre file post content :
  (forall f, In f pre ->
     contents_fails up (up (Direct.contents_request host owner repo f))) ->
  resolves host up owner repo file content ->
  forall tr,
    fst (Direct.readme_loop host up owner repo (pre ++ file :: post) tr)
    = Ok (VStr content).
Proof.
  intros Hpre Hres. induction pre as [|f pre IH]; intros tr; simpl.
  - pose proof (Direct_try_readme_file_resolves host up owner repo file content
                  tr Hres) as Hf.
    unfold mbind, M_bind.
    destruct (Direct.try_readme_file host up owner repo file tr) as [found tr'].
    simpl in Hf. by subst found.
  - pose proof (Direct_try_readme_file_fails host up owner repo f tr
                  (Hpre f (or_introl eq_refl))) as Hf.
    unfold mbind, M_bind.
    destruct (Direct.try_readme_file host up owner repo f tr) as [found tr'].
    simpl in Hf. subst found. apply IH. intros g Hg. apply Hpre. by right.
Qed.

(** X9. The file names are tried in the order README.md, README.rst,
    README.txt, README, and the first that resolves is the result: when
    the names before [file] fail and [file] resolves to [content], the
    fetch returns [content], whatever the later names would give. *)
Theorem Direct_get_readme_content_first host up owner repo pre file post content tr :
  Direct.readme_files = pre ++ file :: post ->
  (forall f, In f pre ->
     contents_fails up (up (Direct.contents_request host owner repo f))) ->
  resolves host up owner repo file content ->
  fst (Direct.get_readme_content host up owner repo tr) = Ok (VStr content).
Proof.
  intros Hfiles Hpre Hres. unfold Direct.get_readme_content.
  unfold mbind, M_bind, emit. rewrite Hfiles.
  by apply Direct_readme_loop_first.
Qed.

(** ** What a README fetch hands back, and what it costs *)

Lemma Direct_try_readme_file_shape host up owner repo file tr :
  exists found ext,
    Direct.try_readme_file host up owner repo file tr = (Ok found, tr ++ ext)
    ∧ (1 <= length (http_requests ext) <= 2)%nat
    ∧ (found = None ∨ exists s, found = Some (VStr s)).
Proof.
  unfold Direct.try_readme_file, Direct.get_download. run.
  assert (Hone : forall req,
            exists found' ext,
              (Ok (@None value), tr ++ [HttpGet req]) = (Ok found', tr ++ ext)
              ∧ (1 <= length (http_requests ext) <= 2)%nat
              ∧ (found' = None ∨ exists s, found' = Some (VStr s))).
  { intros req. exists None, [HttpGet req]. simpl. split; [done|].
    split; [lia|by left]. }
  assert (Htwo : forall (found : option value) req req',
            (found = None ∨ exists s, found = Some (VStr s)) ->
            exists found' ext,
              (Ok found, (tr ++ [HttpGet req]) ++ [HttpGet req'])
              = (Ok found', tr ++ ext)
              ∧ (1 <= length (http_requests ext) <= 2)%nat
              ∧ (found' = None ∨ exists s, found' = Some (VStr s))).
  { intros found req req' Hf. exists found, [HttpGet req; HttpGet req'].
    rewrite <- app_assoc. simpl. split; [done|]. split; [lia|done]. }
  destruct (up _) as [e|a]; simpl; [done|].
  destruct (status a =? 200); simpl; [|done].
  destruct (json a) as [data|]; simpl; [|done].
  destruct (Py.get data "download_url" _) as [u|]; simpl; [|done].
  destruct (Py.truthy u); simpl; [|done].
  destruct u as [| | |s| |]; simpl; try done.
  destruct (up _) as [e|b]; simpl; [by apply Htwo; left|].
  destruct (status b =? 200); simpl; [|by apply Htwo; left].
  destruct (text b) as [content|]; simpl;
    [apply Htwo; right; by eauto | by apply Htwo; left].
Qed.

Lemma Direct_readme_loop_shape host up owner repo files :
  forall tr, exists v ext,
    Direct.readme_loop host up owner repo files tr = (Ok v, tr ++ ext)
    ∧ (length (http_requests ext) <= 2 * length files)%nat
    ∧ (v = VNone ∨ exists s, v = VStr s).
Proof.
  induction files as [|file files IH]; intros tr; simpl.
  - exists VNone, []. run. rewrite app_nil_r. split; [done|].
    split; [simpl; lia | by left].
  - destruct (Direct_try_readme_file_shape host up owner repo file tr)
      as (found & ext & Hrun & Hlen & Hshape).
    unfold mbind, M_bind. rewrite Hrun.
    destruct found as [content|].
    + exists content, ext. run. split; [done|]. split; [lia|].
      destruct Hshape as [|[s Hs]]; [done|]. injection Hs as ->. by eauto.
    + destruct (IH (tr ++ ext)) as (v & ext' & Hloop & Hlen' & Hshape').
      exists v, (ext ++ ext'). rewrite Hloop, app_assoc. split; [done|].
      rewrite http_requests_app, length_app. split; [lia|done].
Qed.

Lemma get_readme_content_bounds impl host up owner repo tr :
  exists v ext,
    get_readme_content_in impl host up owner repo tr = (Ok v, tr ++ ext)
    ∧ (1 <= length (http_requests ext) <= fetch_cost impl)%nat
    ∧ (impl = direct_searcher -> v = VNone ∨ exists s, v = VStr s).
Proof.
  destruct impl; simpl.
  - destruct (Core_get_readme_content_run host up owner repo tr) as [v Hrun].
    exists v, [ReadmeCall owner repo; HttpGet (Core.readme_request host owner repo)].
    split; [done|]. simpl. split; [lia|done].
  - unfold Direct.get_readme_content.
    destruct (Direct_readme_loop_shape host up owner repo Direct.readme_files
                (tr ++ [ReadmeCall owner repo])) as (v & ext & Hrun & Hlen & Hshape).
    exists v, (ReadmeCall owner repo :: ext).
    unfold mbind, M_bind, emit. rewrite Hrun, <- app_assoc. simpl.
    split; [done|]. split; [|done].
    split; [|simpl in Hlen; lia].
    (* at least the contents request for the first file name *)
    clear Hlen Hshape. unfold Direct.readme_files in Hrun. simpl in Hrun.
    destruct (Direct_try_readme_file_shape host up owner repo "README.md"
                (tr ++ [ReadmeCall owner repo])) as (found & ext1 & Hrun1 & Hlen1 & _).
    unfold mbind, M_bind in Hrun. rewrite Hrun1 in Hrun.
    destruct found as [content|].
    + run. injection Hrun as _ Hext. apply app_inv_head in Hext. subst. lia.
    + destruct (Direct_readme_loop_shape host up owner repo
                  ["README.rst"; "README.txt"; "README"]
                  ((tr ++ [ReadmeCall owner repo]) ++ ext1))
        as (v' & ext2 & Hrun2 & _ & _).
      simpl in Hrun2. unfold mbind, M_bind in Hrun2. rewrite Hrun2 in Hrun.
      injection Hrun as _ Hext. rewrite <- app_assoc in Hext.
      apply app_inv_head in Hext. subst.
      rewrite http_requests_app, length_app. lia.
Qed.

(** X10. A README fetch never raises and never asks for more than it may:
    app/core/searcher.py makes exactly one request, github_api_searcher.py
    at least one and at most eight, and the latter hands back a string
    or [None] and nothing else. *)
Theorem get_readme_content_cost impl host up owner repo tr :
  exists v ext,
    get_readme_content_in impl host up owner repo tr = (Ok v, tr ++ ext)
    ∧ (1 <= length (http_requests ext) <= fetch_cost impl)%nat
    ∧ (impl = direct_searcher -> v = VNone ∨ exists s, v = VStr s).
Proof. apply get_readme_content_bounds. Qed.

Lemma Direct_get_readme_content_first_witness :
  Direct.readme_files = ["README.md"] ++ "README.rst" :: ["README.txt"; "README"]
  ∧ resolves Samples.host Fixtures.rst_upstream "o" "r" "README.rst" "Title"
  ∧ fst (Direct.get_readme_content Samples.host Fixtures.rst_upstream "o" "r" [])
    = Ok (VStr "Title").
Proof.
  assert (Hres : resolves Samples.host Fixtures.rst_upstream "o" "r"
                   "README.rst" "Title").
  { eexists _, _, _, _. repeat split; try reflexivity. done. }
  split; [reflexivity|]. split; [exact Hres|].
  apply (Direct_get_readme_content_first Samples.host Fixtures.rst_upstream
           "o" "r" ["README.md"] "README.rst" ["README.txt"; "README"] "Title" []);
    [reflexivity | | exact Hres].
  intros f [<-|[]]. vm_compute. left. discriminate.
Defined.

(** ** Missing keys in the README answer *)

(** X11. A 200 answer without an [encoding] key is decoded as base64, and
    one that has no [content] key either gives the empty string, not
    [None]. *)
Theorem get_readme_content_missing_keys host up owner repo tr a d :
  up (Core.readme_request host owner repo) = Answer a ->
  status a = 200 ->
  json a = Ok (VDict d) ->
  Py.assoc "encoding" d = None ->
  fst (Core.get_readme_content host up owner repo tr)
  = Ok (settled (raw ← Base64.b64decode (default (VStr "") (Py.assoc "content" d));
                 Base64.decode_utf8 raw))
  ∧ (Py.assoc "content" d = None ->
     fst (Core.get_readme_content host up owner repo tr) = Ok (VStr "")).
Proof.
  intros Hup Hstatus Hjson Henc.
  pose proof (get_readme_content_default_encoding host up owner repo tr a d
                Hup Hstatus Hjson Henc) as H.
  split; [done|]. intros Hc. rewrite H, Hc. reflexivity.
Qed.

Lemma get_readme_content_missing_keys_witness :
  let a := mkResponse 200 (Ok (VDict [])) (Ok "") in
  Fixtures.empty_body_upstream (Core.readme_request Samples.host "o" "r") = Answer a
  ∧ status a = 200
  ∧ fst (Core.get_readme_content Samples.host Fixtures.empty_body_upstream "o" "r" [])
    = Ok (VStr "").
Proof.
  intros a. split; [reflexivity|]. split; [reflexivity|].
  exact (proj2 (get_readme_content_missing_keys Samples.host
           Fixtures.empty_body_upstream "o" "r" [] a [] eq_refl eq_refl eq_refl
           eq_refl) eq_refl).
Defined.

(** ** Line breaks in base64 content *)

Lemma scan_skips st l1 c l2 :
  Base64.table_a2b_base64 c = 255 -> c ≠ Base64.BASE64_PAD ->
  Base64.scan st (l1 ++ c :: l2) = Base64.scan st (l1 ++ l2).
Proof.
  intros Htab Hpad. revert st. induction l1 as [|x l1 IH]; intros st; simpl.
  - unfold Base64.step. destruct (Z.eqb_spec c Base64.BASE64_PAD); [done|].
    rewrite Htab. done.
  - destruct (Base64.step st x); [apply IH | done].
Qed.

Lemma bytes_of_string_app s1 s2 :
  Base64.bytes_of_string (s1 +:+ s2)
  = Base64.bytes_of_string s1 ++ Base64.bytes_of_string s2.
Proof.
  induction s1 as [|c s1 IH]; [done|].
  rewrite str_app_cons. simpl. by rewrite IH.
Qed.

(** X12. A character outside the base64 alphabet, such as the line break
    that the upstream puts after every sixty characters, does not
    change what the content decodes to. *)
Theorem b64decode_skips_character s1 c s2 :
  Base64.table_a2b_base64 (Py.byte_val c) = 255 ->
  Py.byte_val c ≠ Base64.BASE64_PAD ->
  Py.byte_val c < 128 ->
  Base64.b64decode (VStr (s1 +:+ String c s2)) = Base64.b64decode (VStr (s1 +:+ s2)).
Proof.
  intros Htab Hpad Hascii. unfold Base64.b64decode.
  rewrite !bytes_of_string_app. simpl.
  rewrite !forallb_app. simpl.
  destruct (Z.ltb_spec (Py.byte_val c) 128); [|lia]. simpl.
  destruct (forallb _ (Base64.bytes_of_string s1) && forallb _ (Base64.bytes_of_string s2));
    [|done].
  unfold Base64.a2b_base64. by apply scan_skips.
Qed.

Lemma b64decode_skips_character_witness :
  Base64.table_a2b_base64 (Py.byte_val "010") = 255
  ∧ (raw ← Base64.b64decode (VStr ("SGVsbG8g" +:+ String "010" "V29ybGQ="));
     Base64.decode_utf8 raw)
    = Ok (VStr "Hello World").
Proof.
  split; [reflexivity|].
  rewrite (b64decode_skips_character "SGVsbG8g" "010" "V29ybGQ=");
    [reflexivity | reflexivity | discriminate | reflexivity].
Defined.

(** ** The requests of search-and-enrich *)

Lemma finish_in_length impl limit all_repos repos :
  0 <= limit ->
  finish_in impl limit all_repos = Ok repos ->
  Z.of_nat (length repos) <= limit.
Proof.
  intros Hl Hfin. destruct impl; simpl in Hfin.
  - apply res_map_length in Hfin. rewrite Hfin. by apply slice_to_length.
  - destruct (res_map Direct.to_repository_info all_repos) as [rs|];
      simpl in Hfin; [|done].
    destruct (Direct.sort_by_stars rs) as [s|]; simpl in Hfin; [|done].
    injection Hfin as <-. by apply slice_to_length.
Qed.

Lemma http_requests_pages host domain limit k :
  length (http_requests
            (map (fun p => HttpGet (page_request host domain limit p)) (seq 1 k)))
  = k.
Proof.
  generalize 1%nat. induction k as [|k IH]; intros n; simpl; [done|].
  by rewrite IH.
Qed.

Lemma fetch_events_cost impl host up repos :
  (length (http_requests
             (concat (map (fetch_events (get_readme_content_in impl host up)) repos)))
   <= fetch_cost impl * length repos)%nat.
Proof.
  induction repos as [|repo repos IH]; simpl; [lia|].
  rewrite http_requests_app, length_app.
  assert (length (http_requests
                    (fetch_events (get_readme_content_in impl host up) repo))
          <= fetch_cost impl)%nat.
  { unfold fetch_events. destruct (owner_repo repo) as [[owner nm]|]; [|simpl; lia].
    destruct (get_readme_content_bounds impl host up owner nm [])
      as (v & ext & Hrun & Hlen & _).
    rewrite Hrun. simpl. lia. }
  lia.
Qed.

(** X13. Search-and-enrich asks the upstream for at most three pages and at
    most one README fetch per record: no more than [3 + limit] requests
    in app/core/searcher.py and no more than [3 + 8 * limit] in
    github_api_searcher.py, whether or not it raises. *)
Theorem search_and_get_readmes_budget impl host up domain limit tr :
  0 <= limit ->
  exists ext,
    snd (search_and_get_readmes_in impl host up domain limit tr) = tr ++ ext
    ∧ (length (http_requests ext) <= 3 + fetch_cost impl * Z.to_nat limit)%nat.
Proof.
  intros Hl.
  destruct (search_pages_run host up domain limit tr) as (k & Hrun & Hstop & Hmin).
  destruct (first_stop_bounds host up domain limit k Hstop Hmin) as (Hk & _).
  pose proof (search_repositories_run impl _ _ _ _ _ _ _ Hrun) as Hsearch.
  rewrite search_and_get_readmes_in_unfold.
  set (pages := map (fun p => HttpGet (page_request host domain limit p)) (seq 1 k))
    in *.
  assert (Hpages : length (http_requests pages) = k)
    by apply http_requests_pages.
  destruct (finish_in impl limit (accumulated host up domain limit k))
    as [repos|e] eqn:Hfin.
  - destruct (Forall_Exists_dec splittable (fun repo => ¬ splittable repo)
                splittable_dec repos) as [Hall|Hex].
    + rewrite (enrich_ok _ _ (get_readme_content_framed impl host up)
                 domain limit tr repos _ Hsearch Hall). simpl.
      eexists. rewrite <- app_assoc. split; [reflexivity|].
      rewrite http_requests_app, length_app, Hpages.
      pose proof (fetch_events_cost impl host up repos) as Hcost.
      pose proof (finish_in_length impl limit _ repos Hl Hfin) as Hlen.
      assert (length repos <= Z.to_nat limit)%nat by lia.
      nia.
    + destruct (enrich_abort _ (get_readme_content_in impl host up)
                  domain limit tr repos _ Hsearch Hex) as (e & -> & _).
      simpl. exists pages. split; [done|]. lia.
  - rewrite (enrich_search_raises _ (get_readme_content_in impl host up)
               domain limit tr e _ Hsearch).
    simpl. exists pages. split; [done|]. lia.
Qed.

Lemma search_and_get_readmes_budget_witness :
  0 <= 1
  ∧ exists ext,
      snd (search_and_get_readmes_in direct_searcher Samples.host
             Samples.test_upstream "test" 1 []) = [] ++ ext
      ∧ (length (http_requests ext)
         <= 3 + fetch_cost direct_searcher * Z.to_nat 1)%nat.
Proof.
  split; [lia|].
  apply (search_and_get_readmes_budget direct_searcher Samples.host
           Samples.test_upstream "test" 1 []). lia.
Defined.

(** ** The routes over the searcher *)

Lemma search_pages_first_page_fails host up domain limit tr :
  1 <= limit ->
  page_failed (page_response host up domain limit 1) ->
  search_pages host up domain limit tr
  = (Ok [], tr ++ [HttpGet (page_request host domain limit 1)]).
Proof.
  intros Hl Hfail.
  destruct (search_pages_run host up domain limit tr) as (k & Hrun & Hstop & Hmin).
  assert (Hn0 : ¬ stops_after host up domain limit 0).
  { intros [H|[H|[H _]]]; [done | simpl in H; lia | lia]. }
  assert (H1 : stops_after host up domain limit 1).
  { right; right. split; [lia|].
    rewrite (page_failed_no_items _ Hfail). unfold per_page_of. simpl. lia. }
  assert (k = 1%nat) as ->.
  { destruct k as [|[|k]]; [done | done |].
    destruct (Hmin 1%nat); [lia | done]. }
  rewrite Hrun. f_equal. f_equal. unfold accumulated. simpl.
  rewrite (page_failed_no_items _ Hfail). done.
Qed.

(** X14. The health probe: without a token it answers unhealthy and makes no
    request.  With a token it runs one search for "test", and since the
    search swallows a failed page it reports the API as connected even
    when the upstream answers every request with an error or not at
    all. *)
Theorem health_check_reports token host up validate st tr :
  (Routes.token_configured token = false ->
   Routes.serve token host up validate Routes.GetHealth (st, tr)
   = (Routes.Health false false false, (st, tr)))
  ∧ (Routes.token_configured token = true ->
     (forall req, page_failed (up req)) ->
     Routes.serve token host up validate Routes.GetHealth (st, tr)
     = (Routes.Health true true true,
        (st, tr ++ [HttpGet (page_request host "test" 1 1)]))).
Proof.
  split; intros Htoken; simpl; unfold Routes.health_check; rewrite Htoken; [done|].
  intros Hfail.
  unfold Routes.new_searcher. rewrite Htoken.
  unfold Core.search_repositories. run.
  rewrite (search_pages_first_page_fails host up "test" 1 tr); [done | lia |].
  apply Hfail.
Qed.

Lemma health_check_reports_witness :
  Routes.token_configured (Some "token") = true
  ∧ (forall req, page_failed (Samples.down_upstream req))
  ∧ Routes.serve (Some "token") Samples.host Samples.down_upstream
      (fun _ => Ok ()) Routes.GetHealth (Routes._search_stats, [])
    = (Routes.Health true true true,
       (Routes._search_stats, [] ++ [HttpGet (page_request Samples.host "test" 1 1)])).
Proof.
  assert (Hfail : forall req, page_failed (Samples.down_upstream req))
    by (intros req; exact I).
  split; [reflexivity|]. split; [exact Hfail|].
  exact (proj2 (health_check_reports (Some "token") Samples.host
           Samples.down_upstream (fun _ => Ok ()) Routes._search_stats [])
           eq_refl Hfail).
Defined.

Lemma converted_without_readme l rs :
  res_map Core.to_repository_info l = Ok rs ->
  Forall (fun r => readme_content r = VNone) rs.
Proof.
  intros H. apply res_map_Ok in H.
  induction H as [|item r l rs Hto _ IH]; constructor; [|done].
  unfold Core.to_repository_info in Hto.
  destruct (Py.getitem item "name"); simpl in Hto; [|done].
  destruct (Py.getitem item "full_name"); simpl in Hto; [|done].
  destruct (Py.get item "description" _); simpl in Hto; [|done].
  destruct (Py.get item "stargazers_count" _); simpl in Hto; [|done].
  destruct (Py.get item "language" _); simpl in Hto; [|done].
  destruct (Py.getitem item "html_url"); simpl in Hto; [|done].
  by injection Hto as <-.
Qed.

Lemma searcher_outcome_length token host up with_readme domain limit tr repos :
  0 <= limit ->
  searcher_outcome token host up with_readme domain limit tr = Ok repos ->
  Z.of_nat (length repos) <= limit
  ∧ (with_readme = false -> Forall (fun r => readme_content r = VNone) repos).
Proof.
  intros Hl. unfold searcher_outcome, Routes.new_searcher.
  destruct (Routes.token_configured token); run; [|done].
  destruct (search_pages_run host up domain limit tr) as (k & Hrun & _).
  pose proof (search_repositories_run core_searcher _ _ _ _ _ _ _ Hrun) as Hsearch.
  simpl in Hsearch.
  destruct with_readme.
  - pose proof (search_and_get_readmes_in_unfold core_searcher host up) as Hu.
    simpl in Hu. rewrite Hu.
    destruct (res_map Core.to_repository_info _) as [repos0|e] eqn:Hfin.
    + destruct (Forall_Exists_dec splittable (fun repo => ¬ splittable repo)
                  splittable_dec repos0) as [Hall|Hex].
      * rewrite (enrich_ok _ _ (Core_get_readme_content_framed host up)
                   domain limit tr repos0 _ Hsearch Hall). simpl.
        intros H. injection H as <-. split; [|done].
        rewrite length_map.
        exact (finish_in_length core_searcher limit
                 (accumulated host up domain limit k) repos0 Hl Hfin).
      * destruct (enrich_abort _ (Core.get_readme_content host up)
                    domain limit tr repos0 _ Hsearch Hex) as (e & -> & _).
        done.
    + by rewrite (enrich_search_raises _ (Core.get_readme_content host up)
                    domain limit tr e _ Hsearch).
  - rewrite Hsearch. simpl. intros Hfin. split.
    + exact (finish_in_length core_searcher limit
               (accumulated host up domain limit k) repos Hl Hfin).
    + intros _. by apply (converted_without_readme _ _ Hfin).
Qed.

Lemma serve_Found token host up validate r w domain repos w' :
  Routes.serve token host up validate r w = (Routes.Found domain repos, w') ->
  exists with_readme limit found,
    route_search r = Some (with_readme, domain, limit)
    ∧ Routes.limit_ok limit = true
    ∧ searcher_outcome token host up with_readme domain limit (snd w) = Ok found
    ∧ repos = (if with_readme then found
               else map (set_readme_content VNone) found).
Proof.
  destruct w as [st tr].
  assert (Hcount : forall wr d l,
            fst (Routes.search_and_count token host up wr d l (st, tr))
            = searcher_outcome token host up wr d l tr).
  { intros wr d l. unfold Routes.search_and_count, searcher_outcome.
    match goal with
    | |- context [match ?x with (_, _) => _ end] => destruct x as [[?|?] ?]
    end; done. }
  destruct r as [| |d l|d l|d l|d l| |]; cbn [Routes.serve route_search snd].
  - done.
  - unfold Routes.health_check.
    destruct (Routes.token_configured token); [|done].
    match goal with
    | |- context [match ?x with (_, _) => _ end] => destruct x as [[?|?] ?]
    end; done.
  - destruct (Routes.limit_ok l) eqn:Hok; [|done].
    unfold Routes.search_repositories. specialize (Hcount true d l).
    destruct (Routes.search_and_count _ _ _ _ _ _ _) as [[found|e] w0];
      simpl in Hcount; [|done].
    destruct (res_map validate found); [|done].
    intros H. injection H as <- <- _. exists true, l, found. by rewrite <- Hcount.
  - destruct (Routes.limit_ok l) eqn:Hok; [|done].
    unfold Routes.search_repositories_query. specialize (Hcount true d l).
    destruct (Routes.search_and_count _ _ _ _ _ _ _) as [[found|e] w0];
      simpl in Hcount; [|done].
    intros H. injection H as <- <- _. exists true, l, found. by rewrite <- Hcount.
  - destruct (Routes.limit_ok l) eqn:Hok; [|done].
    unfold Routes.search_repositories_simple. specialize (Hcount true d l).
    destruct (Routes.search_and_count _ _ _ _ _ _ _) as [[found|e] w0];
      simpl in Hcount; [|done].
    intros H. injection H as <- <- _. exists true, l, found. by rewrite <- Hcount.
  - destruct (Routes.limit_ok l) eqn:Hok; [|done].
    unfold Routes.search_repositories_no_readme. specialize (Hcount false d l).
    destruct (Routes.search_and_count _ _ _ _ _ _ _) as [[found|e] w0];
      simpl in Hcount; [|done].
    intros H. injection H as <- <- _. exists false, l, found. by rewrite <- Hcount.
  - done.
  - done.
Qed.

(** X15. A successful answer of a search route carries the domain that was
    asked for and at most [limit] repositories, which is at most a
    hundred; the route without README carries no README. *)
Theorem serve_Found_bounded token host up validate r w domain repos w' :
  Routes.serve token host up validate r w = (Routes.Found domain repos, w') ->
  exists with_readme limit,
    route_search r = Some (with_readme, domain, limit)
    ∧ Z.of_nat (length repos) <= limit <= 100
    ∧ (with_readme = false -> Forall (fun r => readme_content r = VNone) repos).
Proof.
  intros Hserve.
  destruct (serve_Found _ _ _ _ _ _ _ _ _ Hserve)
    as (with_readme & limit & found & Hr & Hok & Hout & ->).
  exists with_readme, limit. split; [done|].
  unfold Routes.limit_ok in Hok. apply andb_true_iff in Hok as [H1 H2].
  apply Z.leb_le in H1, H2.
  assert (Hl : 0 <= limit) by lia.
  destruct (searcher_outcome_length _ _ _ _ _ _ _ _ Hl Hout) as [Hlen Hnone].
  destruct with_readme.
  - split; [lia|done].
  - rewrite length_map. split; [lia|]. intros _.
    apply Forall_map. apply Forall_forall. done.
Qed.

Lemma serve_Found_bounded_witness :
  Routes.serve (Some "token") Samples.host Samples.test_upstream (fun _ => Ok ())
    (Routes.GetSearchNoReadme "test" 1) (Routes._search_stats, [])
  = (Routes.Found "test" [Samples.record "test-repo" "test-owner/test-repo" 100 VNone],
     (Routes.update_statistics "test"
        [Samples.record "test-repo" "test-owner/test-repo" 100 VNone]
        Routes._search_stats,
      [HttpGet (page_request Samples.host "test" 1 1)]))
  ∧ exists with_readme limit,
      route_search (Routes.GetSearchNoReadme "test" 1)
      = Some (with_readme, "test", limit)
      ∧ Z.of_nat (length [Samples.record "test-repo" "test-owner/test-repo" 100 VNone])
        <= limit <= 100.
Proof.
  split; [reflexivity|].
  destruct (serve_Found_bounded (Some "token") Samples.host Samples.test_upstream
              (fun _ => Ok ()) (Routes.GetSearchNoReadme "test" 1)
              (Routes._search_stats, []) "test"
              [Samples.record "test-repo" "test-owner/test-repo" 100 VNone]
              _ eq_refl) as (with_readme & limit & Hr & Hlen & _).
  exists with_readme, limit. split; [exact Hr | exact Hlen].
Defined.

(** ** The counters over a sequence of requests *)

Lemma sum_counts_insert (m : gmap string Z) d v :
  sum_counts (<[d := v]> m) = v + sum_counts (delete d m).
Proof.
  unfold sum_counts. rewrite <- insert_delete_eq.
  apply (map_fold_insert_L (fun _ v acc => v + acc)).
  - intros. lia.
  - apply lookup_delete_eq.
Qed.

Lemma sum_counts_lookup (m : gmap string Z) d :
  sum_counts m = default 0 (m !! d) + sum_counts (delete d m).
Proof.
  destruct (m !! d) as [v|] eqn:Hd; simpl.
  - unfold sum_counts.
    apply (map_fold_delete_L (fun _ v acc => v + acc)); [|done].
    intros. lia.
  - by rewrite delete_id.
Qed.

Lemma update_statistics_consistent domain repos st :
  Z.of_nat (length repos) <= 100 ->
  stats_consistent st ->
  stats_consistent (Routes.update_statistics domain repos st).
Proof.
  intros Hlen (Hsum & Hpos & Hfound).
  unfold stats_consistent, Routes.update_statistics. simpl.
  assert (Hd : 0 <= default 0 (Routes.searched_domains st !! domain)).
  { destruct (Routes.searched_domains st !! domain) as [v|] eqn:Hv; simpl; [|lia].
    specialize (Hpos domain v Hv). simpl in Hpos. lia. }
  split; [|split].
  - rewrite sum_counts_insert, Hsum.
    rewrite (sum_counts_lookup (Routes.searched_domains st) domain). lia.
  - apply map_Forall_insert_2; [lia | done].
  - lia.
Qed.

Lemma serve_stats token host up validate r st tr :
  fst (snd (Routes.serve token host up validate r (st, tr)))
  = match route_search r with
    | Some (with_readme, domain, limit) =>
        if Routes.limit_ok limit then
          match searcher_outcome token host up with_readme domain limit tr with
          | Ok repositories => Routes.update_statistics domain repositories st
          | Raise _ => st
          end
        else st
    | None => st
    end.
Proof.
  destruct (route_search r) as [[[with_readme domain] limit]|] eqn:Hr.
  - destruct (Routes.limit_ok limit) eqn:Hok.
    + rewrite (serve_world _ _ _ _ _ _ _ _ _ Hr Hok).
      apply search_and_count_stats.
    + destruct r; cbn [route_search] in Hr; inversion Hr; subst;
        cbn [Routes.serve]; by rewrite Hok.
  - destruct r; cbn [route_search] in Hr; try done; cbn [Routes.serve]; try done.
    unfold Routes.health_check.
    destruct (Routes.token_configured token); [|done].
    match goal with
    | |- context [match ?x with (_, _) => _ end] => destruct x as [[?|?] ?]
    end; done.
Qed.

Lemma serve_consistent token host up validate r w :
  stats_consistent (fst w) ->
  stats_consistent (fst (snd (Routes.serve token host up validate r w))).
Proof.
  destruct w as [st tr]. simpl. intros Hst. rewrite serve_stats.
  destruct (route_search r) as [[[with_readme domain] limit]|]; [|done].
  destruct (Routes.limit_ok limit) eqn:Hok; [|done].
  destruct (searcher_outcome _ _ _ _ _ _ _) as [repos|e] eqn:Hout; [|done].
  unfold Routes.limit_ok in Hok. apply andb_true_iff in Hok as [H1 H2].
  apply Z.leb_le in H1, H2.
  assert (Hl : 0 <= limit) by lia.
  destruct (searcher_outcome_length _ _ _ _ _ _ _ _ Hl Hout) as [Hlen _].
  apply update_statistics_consistent; [lia | done].
Qed.

(** X16. Whatever requests the server has answered since it started, against
    whatever upstream, the counters agree: the number of searches is the
    sum of the per-domain counts, every domain on record has been
    searched at least once, and the repositories found are between zero
    and a hundred per search. *)
Theorem usage_statistics_consistent token host validate reqs tr :
  stats_consistent
    (fst (serve_all token host validate reqs (Routes._search_stats, tr))).
Proof.
  assert (Hinit : stats_consistent (fst (Routes._search_stats, tr))).
  { simpl. unfold stats_consistent, Routes._search_stats, sum_counts. simpl.
    rewrite map_fold_empty. split; [done|]. split; [|lia].
    apply map_Forall_empty. }
  revert Hinit. generalize (Routes._search_stats, tr).
  induction reqs as [|[up r] reqs IH]; intros w Hw; simpl; [done|].
  apply IH. by apply serve_consistent.
Qed.

(** ** The constructors *)

Lemma rstrip_spec s :
  Searcher.last_char (Searcher.rstrip s) ≠ Some "/"%char
  ∧ exists k, s = Searcher.rstrip s +:+ Searcher.slashes k.
Proof.
  induction s as [|c s (Hlast & k & Hs)]; simpl.
  - split; [done|]. by exists 0%nat.
  - destruct (Searcher.rstrip s) as [|x r] eqn:Hr.
    + destruct (Ascii.eqb_spec c "/") as [->|Hc].
      * split; [done|]. exists (S k). simpl. by rewrite Hs at 1.
      * split; [simpl; congruence|]. exists k.
        rewrite Hs at 1. reflexivity.
    + split; [done|]. exists k. rewrite Hs at 1. reflexivity.
Qed.

(** X17. The constructor of app/core/searcher.py takes the token of the call
    if it has one and the configured token otherwise, and raises
    [ValueError] when both are missing or empty; the host it keeps is
    the given host without its trailing slashes and nothing else taken
    away, so that a request address joins host and path with the one
    slash of the path.  The constructor of github_api_searcher.py strips
    the host in the same way and accepts any token. *)
Theorem searcher_init_spec settings token host direct_token direct_host :
  let given_host := default "" (Searcher.or_else host (Some (Searcher.GITHUB_HOST settings))) in
  (Searcher.truthy (Searcher.or_else token (Searcher.GITHUB_TOKEN settings)) = false ->
   Searcher.Core_init settings token host = Raise ValueError)
  ∧ (forall s,
       Searcher.Core_init settings token host = Ok s ->
       Searcher.truthy (Searcher.github_token s) = true
       ∧ Searcher.github_token s
         = (if Searcher.truthy token then token else Searcher.GITHUB_TOKEN settings)
       ∧ Searcher.last_char (Searcher.github_host s) ≠ Some "/"%char
       ∧ exists k, given_host = Searcher.github_host s +:+ Searcher.slashes k)
  ∧ Searcher.github_token (Searcher.Direct_init direct_token direct_host)
    = Some direct_token
  ∧ Searcher.last_char (Searcher.github_host (Searcher.Direct_init direct_token direct_host))
    ≠ Some "/"%char
  ∧ exists k, direct_host
              = Searcher.github_host (Searcher.Direct_init direct_token direct_host)
                +:+ Searcher.slashes k.
Proof.
  intros given_host. unfold Searcher.Core_init. fold given_host.
  split; [by intros ->|]. split.
  - intros s. destruct (Searcher.truthy (Searcher.or_else token _)) eqn:Ht; [|done].
    intros H. injection H as <-. simpl. split; [done|].
    split; [done|]. apply rstrip_spec.
  - simpl. split; [done|]. apply rstrip_spec.
Qed.

Lemma searcher_init_spec_witness :
  Searcher.truthy (Searcher.or_else None (Searcher.GITHUB_TOKEN
                     (Searcher.mkSettings None "https://api.github.com/"))) = false
  ∧ Searcher.Core_init (Searcher.mkSettings None "https://api.github.com/") None None
    = Raise ValueError
  ∧ Searcher.Core_init (Searcher.mkSettings (Some "t") "https://api.github.com//")
      None None
    = Ok (Searcher.mkSearcher (Some "t") "https://api.github.com").
Proof.
  split; [reflexivity|]. split; [|reflexivity].
  exact (proj1 (searcher_init_spec (Searcher.mkSettings None "https://api.github.com/")
                  None None "" "") eq_refl).
Defined.

(** ** Conversion in the two implementations *)

Lemma res_map_Raise {A B} (f : A -> res B) l :
  Exists (fun x => exists e, f x = Raise e) l -> exists e, res_map f l = Raise e.
Proof.
  induction l as [|x l IH]; intros Hex; [by inversion Hex|]. simpl.
  destruct (f x) as [y|e] eqn:Hx; simpl; [|by eauto].
  assert (Hrest : Exists (fun x => exists e, f x = Raise e) l).
  { inversion Hex as [? ? [e He]|]; subst; [congruence | done]. }
  destruct (IH Hrest) as [e ->]. simpl. by eauto.
Qed.

(** X7. app/core/searcher.py converts the first [limit] items only, so it
    returns whenever these convert; github_api_searcher.py converts
    every accumulated item before it truncates, so one item that does
    not convert, wherever it stands, makes the search raise. *)
Theorem search_repositories_conversion_scope host up domain limit tr all_repos :
  fst (search_pages host up domain limit tr) = Ok all_repos ->
  (Forall (fun item => exists repo, Core.to_repository_info item = Ok repo)
          (Py.slice_to all_repos limit) ->
   exists repos, fst (Core.search_repositories host up domain limit tr) = Ok repos)
  ∧ (Exists (fun item => exists e, Direct.to_repository_info item = Raise e)
            all_repos ->
     exists e, fst (Direct.search_repositories host up domain limit tr) = Raise e).
Proof.
  intros Hpages.
  destruct (search_pages host up domain limit tr) as [r tr'] eqn:Hrun.
  simpl in Hpages. subst r.
  pose proof (search_repositories_run core_searcher _ _ _ _ _ _ _ Hrun) as Hc.
  pose proof (search_repositories_run direct_searcher _ _ _ _ _ _ _ Hrun) as Hd.
  simpl in Hc, Hd. rewrite Hc, Hd. simpl. split.
  - intros Hall. by apply res_map_total.
  - intros Hex. destruct (res_map_Raise _ _ Hex) as [e ->]. simpl. by eauto.
Qed.

Lemma search_repositories_conversion_scope_witness :
  fst (search_pages Samples.host Fixtures.ragged_upstream "test" 1 [])
  = Ok [Samples.raw_item "a" "o/a" 3; VDict [("name", VStr "b")]]
  ∧ (exists repos,
       fst (Core.search_repositories Samples.host Fixtures.ragged_upstream "test" 1 [])
       = Ok repos)
  ∧ (exists e,
       fst (Direct.search_repositories Samples.host Fixtures.ragged_upstream "test" 1 [])
       = Raise e).
Proof.
  split; [reflexivity|].
  destruct (search_repositories_conversion_scope Samples.host
              Fixtures.ragged_upstream "test" 1 [] _ eq_refl) as [Hcore Hdirect].
  split.
  - apply Hcore. constructor; [|constructor]. eexists. reflexivity.
  - apply Hdirect. right. left. eexists. reflexivity.
Defined.

(** ** The routes of api_server_direct.py *)

(** X18. Without a token the search routes answer 503 and make no request.
    The route without README does not bound [limit]: with a token and a
    limit of zero or less it answers with an empty list, again without a
    request.  The query and path routes build a [SearchRequest] first,
    and a limit outside [1, 100] leaves the handler as an exception. *)
Theorem direct_server_limits token up validate domain limit tr :
  (Searcher.truthy token = false ->
   DirectServer.search_repositories token up validate (domain, limit) tr
   = (DirectServer.Unavailable, tr)
   ∧ DirectServer.search_repositories_no_readme token up validate domain limit tr
     = (DirectServer.Unavailable, tr))
  ∧ (Searcher.truthy token = true -> limit <= 0 ->
     DirectServer.search_repositories_no_readme token up validate domain limit tr
     = (DirectServer.Found domain [], tr))
  ∧ (¬ (1 <= limit <= 100) ->
     DirectServer.search_repositories_query token up validate domain limit tr
     = (DirectServer.Unhandled ValueError, tr)
     ∧ DirectServer.search_repositories_simple token up validate domain limit tr
       = (DirectServer.Unhandled ValueError, tr)).
Proof.
  split; [|split].
  - intros Ht. unfold DirectServer.search_repositories,
      DirectServer.search_repositories_no_readme. by rewrite Ht.
  - intros Ht Hl. unfold DirectServer.search_repositories_no_readme.
    rewrite Ht. simpl.
    pose proof (search_pages_run DirectServer.github_host up domain limit tr)
      as (k & Hrun & Hstop & Hmin).
    destruct (first_stop_bounds _ up domain limit k Hstop Hmin) as (_ & H0 & _).
    rewrite (H0 Hl) in Hrun. simpl in Hrun. rewrite app_nil_r in Hrun.
    pose proof (search_repositories_run direct_searcher _ _ _ _ _ _ _ Hrun) as Hs.
    simpl in Hs.
    assert (Hslice : Py.slice_to (@nil RepositoryInfo) limit = []).
    { unfold Py.slice_to. destruct (0 <=? limit); apply take_nil. }
    rewrite Hslice in Hs.
    unfold mbind at 1, M_bind at 1. rewrite Hs. by run.
  - intros Hl. unfold DirectServer.search_repositories_query,
      DirectServer.search_repositories_simple, DirectServer.SearchRequest.
    destruct (Z.leb_spec 1 limit), (Z.leb_spec limit 100); simpl; try done. lia.
Qed.

Lemma direct_server_limits_witness :
  Searcher.truthy (Some "token") = true
  ∧ -1 <= 0
  ∧ DirectServer.search_repositories_no_readme (Some "token") Samples.test_upstream
      (fun r => Ok r) "test" (-1) []
    = (DirectServer.Found "test" [], []).
Proof.
  split; [reflexivity|]. split; [lia|].
  apply (proj1 (proj2 (direct_server_limits (Some "token") Samples.test_upstream
                         (fun r => Ok r) "test" (-1) []))); [reflexivity | lia].
Defined.

Lemma enriched_stars fetch repo : stars (enriched fetch repo) = stars repo.
Proof.
  unfold enriched. by destruct (owner_repo repo) as [[? ?]|].
Qed.

Lemma StronglySorted_stars_ge_Forall2 l l' :
  Forall2 (fun r r' => forall n, stars r = VInt n -> stars r' = VInt n) l l' ->
  StronglySorted stars_ge l -> StronglySorted stars_ge l'.
Proof.
  induction 1 as [|r r' l l' Hr Hrest IH]; intros Hs; [constructor|].
  apply StronglySorted_cons in Hs as [Hall Hs].
  constructor; [by apply IH|].
  clear IH Hs. induction Hrest as [|q q' l l' Hq _ IH]; [constructor|].
  inversion Hall as [|? ? (x & y & Hx & Hy & Hle) Hall']; subst.
  constructor; [|by apply IH].
  exists x, y. split; [by apply Hr|]. split; [by apply Hq | done].
Qed.

(** X19. When the upstream delivers well-formed items and building a
    [RepositoryResponse] leaves an integer star count as it is, every
    successful answer of the POST search route of api_server_direct.py
    lists its repositories in descending order of star count: neither
    the enrichment nor the response objects disturb the order of the
    local sort. *)
Theorem direct_server_sorted token up RepositoryResponse domain limit tr responses tr' :
  (forall req, Forall well_formed_item (page_items (up req))) ->
  (forall r resp n,
     RepositoryResponse r = Ok resp -> stars r = VInt n -> stars resp = VInt n) ->
  DirectServer.search_repositories token up RepositoryResponse (domain, limit) tr
  = (DirectServer.Found domain responses, tr') ->
  StronglySorted stars_ge responses.
Proof.
  intros Hup Hkeep. unfold DirectServer.search_repositories.
  destruct (negb (Searcher.truthy token)); [done|].
  pose proof (search_and_get_readmes_in_unfold direct_searcher
                DirectServer.github_host up) as Hu. simpl in Hu. rewrite Hu.
  destruct (search_pages_run DirectServer.github_host up domain limit tr)
    as (k & Hrun & _).
  pose proof (search_repositories_run direct_searcher _ _ _ _ _ _ _ Hrun) as Hsearch.
  destruct (finish_direct_well_formed limit _
              (accumulated_Forall DirectServer.github_host up domain limit
                 well_formed_item k Hup))
    as (sorted & Hfin & _ & Hsorted).
  rewrite Hfin in Hsearch. simpl in Hsearch.
  destruct (slice_to_take_drop sorted limit) as [m Hm]. rewrite Hm in Hsearch.
  pose proof (proj1 (top_of_sorted sorted m Hsorted)) as Htop.
  destruct (Forall_Exists_dec splittable (fun repo => ¬ splittable repo)
              splittable_dec (take m sorted)) as [Hall|Hex].
  - unfold mbind at 1, M_bind at 1.
    rewrite (enrich_ok _ _ (Direct_get_readme_content_framed _ up)
               domain limit tr _ _ Hsearch Hall).
    unfold lift.
    destruct (res_map RepositoryResponse _) as [resps|e] eqn:Hresp; [|done].
    intros H. injection H as <- _.
    apply res_map_Ok in Hresp.
    eapply StronglySorted_stars_ge_Forall2; [|exact Htop].
    clear -Hresp Hkeep.
    remember (take m sorted) as l eqn:Hl. clear Hl.
    remember (map (enriched (Direct.get_readme_content DirectServer.github_host up)) l)
      as l' eqn:Hl'.
    revert l Hl'. induction Hresp as [|r' resp l0 rs Hr _ IH]; intros l Hl'.
    + destruct l; [constructor | done].
    + destruct l as [|r l]; [done|]. simpl in Hl'. injection Hl' as -> ->.
      constructor; [|by apply IH].
      intros n Hn. apply (Hkeep _ _ _ Hr). by rewrite enriched_stars.
  - unfold mbind at 1, M_bind at 1.
    destruct (enrich_abort _ (Direct.get_readme_content DirectServer.github_host up)
                domain limit tr _ _ Hsearch Hex) as (e & -> & _).
    done.
Qed.

Lemma direct_server_sorted_witness :
  (forall req, Forall well_formed_item (page_items (Samples.unsorted_upstream req)))
  ∧ DirectServer.search_repositories (Some "token") Samples.unsorted_upstream
      (fun r => Ok r) ("test", 2) []
    = (DirectServer.Found "test"
         [Samples.record "b" "o/b" 5 VNone; Samples.record "a" "o/a" 1 VNone],
       snd (DirectServer.search_repositories (Some "token") Samples.unsorted_upstream
              (fun r => Ok r) ("test", 2) []))
  ∧ StronglySorted stars_ge
      [Samples.record "b" "o/b" 5 VNone; Samples.record "a" "o/a" 1 VNone].
Proof.
  assert (Hup : forall req,
            Forall well_formed_item (page_items (Samples.unsorted_upstream req))).
  { intros req. unfold Samples.unsorted_upstream.
    destruct (Samples.is_page 1 req); [|constructor].
    repeat constructor; eexists _, _; (split; [reflexivity|]);
      repeat split; by eauto. }
  assert (Hrun : DirectServer.search_repositories (Some "token")
                   Samples.unsorted_upstream (fun r => Ok r) ("test", 2) []
                 = (DirectServer.Found "test"
                      [Samples.record "b" "o/b" 5 VNone;
                       Samples.record "a" "o/a" 1 VNone],
                    snd (DirectServer.search_repositories (Some "token")
                           Samples.unsorted_upstream (fun r => Ok r) ("test", 2) [])))
    by (vm_compute; reflexivity).
  split; [exact Hup|]. split; [exact Hrun|].
  apply (direct_server_sorted _ _ _ _ _ _ _ _ Hup) in Hrun; [exact Hrun|].
  intros r resp n H Hn. injection H as <-. exact Hn.
Defined.
